(** * Announcements endpoints of the High School Management System API

    A shallow embedding of [src/backend/routers/announcements.py] and the
    properties of its five handlers.

    Conventions of the embedding.
    - A Python [str] is a [string] holding its UTF-8 bytes.  Python orders
      [str] by code point, and the byte order of UTF-8 coincides with the
      code point order, so [String.ltb] is Python's [<] on [str].
    - A document (a Python [dict] with [str] keys) is a [gmap string value].
    - A handler is a function of the store; an exception leaves the store
      as it was when it was raised.
    - [datetime.now().isoformat()] and the identifier that the driver
      generates for an inserted document are inputs of the handlers that
      use them. *)

From stdpp Require Import gmap strings list fin_maps.
From Stdlib Require Import String Ascii NArith.

Open Scope string_scope.
Open Scope N_scope.
Open Scope list_scope.

(** ** Object identifiers ([bson.ObjectId]) *)

Module bson.

(** The twelve bytes of an identifier, each below 256. *)
Record ObjectId := mkObjectId { binary : list N }.

#[global] Instance ObjectId_eq_dec : EqDecision ObjectId.
Proof. solve_decision. Defined.

(** [Py_ISSPACE]: blank, and the control characters 9 to 13. *)
Definition is_space (c : ascii) : bool :=
  let n := N_of_ascii c in
  (n =? 32) || ((9 <=? n) && (n <=? 13)).

Definition hex_val (c : ascii) : option N :=
  let n := N_of_ascii c in
  if (48 <=? n) && (n <=? 57) then Some (n - 48)
  else if (97 <=? n) && (n <=? 102) then Some (n - 87)
  else if (65 <=? n) && (n <=? 70) then Some (n - 55)
  else None.

(** [bytes.fromhex]: pairs of hexadecimal digits, white space allowed
    between the pairs. *)
Fixpoint fromhex (s : string) : option (list N) :=
  match s with
  | EmptyString => Some []
  | String c rest =>
      if is_space c then fromhex rest
      else match rest with
           | EmptyString => None
           | String c2 rest' =>
               match hex_val c, hex_val c2 with
               | Some top, Some bot =>
                   match fromhex rest' with
                   | Some bs => Some ((16 * top + bot) :: bs)
                   | None => None
                   end
               | _, _ => None
               end
           end
  end.

(** [ObjectId(oid)] for a [str] argument: the argument has 24 characters
    and [bytes.fromhex] accepts it; anything else is [InvalidId]. *)
Definition of_str (oid : string) : option ObjectId :=
  if (N.of_nat (String.length oid) =? 24)
  then mkObjectId <$> fromhex oid
  else None.

Definition hex_digit (n : N) : ascii :=
  ascii_of_N (if n <? 10 then 48 + n else 87 + n).

Definition hexlify (bs : list N) : string :=
  foldr (fun b acc => String (hex_digit (b / 16)) (String (hex_digit (b mod 16)) acc))
        EmptyString bs.

(** [str(oid)]: the bytes in lower-case hexadecimal. *)
Definition to_str (o : ObjectId) : string := hexlify (binary o).

End bson.

(** ** Values, truthiness and comparison *)

(** The values this module reads and writes in a document. *)
Inductive value :=
  | VNone
  | VStr (s : string)
  | VOid (o : bson.ObjectId).

#[global] Instance value_eq_dec : EqDecision value.
Proof. solve_decision. Defined.

Abbreviation doc := (gmap string value).

(** The exceptions a handler can end in. *)
Inductive exn :=
  | HTTPException (status_code : N) (detail : string)
  | InvalidId
  | TypeError
  | KeyError
  | DuplicateKeyError.

Inductive res (A : Type) :=
  | Ok (a : A)
  | Raise (e : exn).
Arguments Ok {A} a.
Arguments Raise {A} e.

#[global] Instance exn_eq_dec : EqDecision exn.
Proof. solve_decision. Defined.

#[global] Instance res_eq_dec {A} `{EqDecision A} : EqDecision (res A).
Proof. solve_decision. Defined.

#[global] Instance res_ret : MRet res := fun A a => Ok a.
#[global] Instance res_bind : MBind res := fun A B f m =>
  match m with
  | Ok a => f a
  | Raise e => Raise e
  end.

(** [bool(v)] *)
Definition truthy (v : value) : bool :=
  match v with
  | VNone => false
  | VStr s => negb (String.eqb s "")
  | VOid _ => true
  end.

(** [str(v)] *)
Definition py_str (v : value) : string :=
  match v with
  | VNone => "None"
  | VStr s => s
  | VOid o => bson.to_str o
  end.

(** [a < b] and [a > b] for a [str] on the left: only another [str] is
    comparable with it. *)
Definition py_lt (a : string) (b : value) : res bool :=
  match b with
  | VStr s => Ok (String.ltb a s)
  | _ => Raise TypeError
  end.

Definition py_gt (a : string) (b : value) : res bool :=
  match b with
  | VStr s => Ok (String.ltb s a)
  | _ => Raise TypeError
  end.

(** [d.get(k)] and [d[k]] *)
Definition dict_get (d : doc) (k : string) : value := default VNone (d !! k).

Definition dict_getitem (d : doc) (k : string) : res value :=
  match d !! k with
  | Some v => Ok v
  | None => Raise KeyError
  end.

Definition of_optional (o : option string) : value :=
  match o with
  | Some s => VStr s
  | None => VNone
  end.

(** ** The record store

    A collection is the sequence of its documents in the store's order.
    The store gives every document an [_id]; it is kept apart from the
    other fields, and a read returns the document with its [_id] field. *)

Abbreviation collection := (list (value * doc)).

Inductive coll := Teachers | Announcements.

Inductive access := Find | FindOne | InsertOne | UpdateOne | DeleteOne.

(** The two collections of [..database], and the accesses made so far,
    oldest first. *)
Record world := mkWorld {
  teachers_collection : collection;
  announcements_collection : collection;
  trace : list (coll * access)
}.

#[global] Instance coll_eq_dec : EqDecision coll.
Proof. solve_decision. Defined.

#[global] Instance access_eq_dec : EqDecision access.
Proof. solve_decision. Defined.

Definition M (A : Type) : Type := world -> res A * world.

#[global] Instance M_ret : MRet M := fun A a w => (Ok a, w).
#[global] Instance M_bind : MBind M := fun A B f m w =>
  match m w with
  | (Ok a, w') => f a w'
  | (Raise e, w') => (Raise e, w')
  end.

Definition raise {A} (e : exn) : M A := fun w => (Raise e, w).

Definition lift {A} (r : res A) : M A := fun w => (r, w).

Definition contents (c : coll) (w : world) : collection :=
  match c with
  | Teachers => teachers_collection w
  | Announcements => announcements_collection w
  end.

Definition set_contents (c : coll) (l : collection) (w : world) : world :=
  match c with
  | Teachers => mkWorld l (announcements_collection w) (trace w)
  | Announcements => mkWorld (teachers_collection w) l (trace w)
  end.

Definition record (c : coll) (a : access) (w : world) : world :=
  mkWorld (teachers_collection w) (announcements_collection w) (trace w ++ [(c, a)]).

(** A stored document as a read returns it. *)
Definition with_id (r : value * doc) : doc := <["_id" := r.1]> r.2.

(** The first document whose [_id] is [id]. *)
Fixpoint lookup_id (id : value) (l : collection) : option (value * doc) :=
  match l with
  | [] => None
  | r :: l' => if decide (r.1 = id) then Some r else lookup_id id l'
  end.

(** [$set]: the first document whose [_id] is [id] takes the fields of
    [upd]; the result is the number of documents matched. *)
Fixpoint set_first (id : value) (upd : doc) (l : collection) : N * collection :=
  match l with
  | [] => (0, [])
  | r :: l' =>
      if decide (r.1 = id) then (1, (r.1, upd ∪ r.2) :: l')
      else let '(n, l'') := set_first id upd l' in (n, r :: l'')
  end.

(** The first document whose [_id] is [id] is removed; the result is the
    number of documents deleted. *)
Fixpoint remove_first (id : value) (l : collection) : N * collection :=
  match l with
  | [] => (0, [])
  | r :: l' =>
      if decide (r.1 = id) then (1, l')
      else let '(n, l'') := remove_first id l' in (n, r :: l'')
  end.

(** [c.find({})] *)
Definition find (c : coll) : M (list doc) := fun w =>
  (Ok (with_id <$> contents c w), record c Find w).

(** [c.find_one({"_id": id})] *)
Definition find_one (c : coll) (id : value) : M (option doc) := fun w =>
  (Ok (with_id <$> lookup_id id (contents c w)), record c FindOne w).

(** [c.insert_one(document)] for a [document] without [_id]: the driver
    gives it [new_id]; the store refuses an [_id] it already holds.  The
    result is [inserted_id]. *)
Definition insert_one (c : coll) (new_id : bson.ObjectId) (document : doc) : M value := fun w =>
  let w' := record c InsertOne w in
  match lookup_id (VOid new_id) (contents c w) with
  | Some _ => (Raise DuplicateKeyError, w')
  | None => (Ok (VOid new_id), set_contents c (contents c w ++ [(VOid new_id, document)]) w')
  end.

(** [c.update_one({"_id": id}, {"$set": upd})]; the result is
    [matched_count]. *)
Definition update_one (c : coll) (id : value) (upd : doc) : M N := fun w =>
  let '(n, l) := set_first id upd (contents c w) in
  (Ok n, set_contents c l (record c UpdateOne w)).

(** [c.delete_one({"_id": id})]; the result is [deleted_count]. *)
Definition delete_one (c : coll) (id : value) : M N := fun w =>
  let '(n, l) := remove_first id (contents c w) in
  (Ok n, set_contents c l (record c DeleteOne w)).

(** [ObjectId(s)] *)
Definition ObjectId (s : string) : M bson.ObjectId :=
  match bson.of_str s with
  | Some o => mret o
  | None => raise InvalidId
  end.

(** [bool(d)] for the result of [find_one]: [None] and the empty [dict]
    are false. *)
Definition truthy_doc (d : option doc) : bool :=
  match d with
  | None => false
  | Some d => negb (bool_decide (d = ∅))
  end.

(** ** Request bodies *)

Module AnnouncementCreate.
Record t := mk {
  message : string;
  start_date : option string;
  expiration_date : string
}.
End AnnouncementCreate.

(** A JSON body member of the kinds the model [str | None] accepts. *)
Inductive json := JNull | JString (s : string).

Module AnnouncementUpdate.
Record t := mk {
  message : option string;
  start_date : option string;
  expiration_date : option string
}.

Definition field (body : gmap string json) (k : string) : option string :=
  match body !! k with
  | Some (JString s) => Some s
  | Some JNull => None
  | None => None
  end.

(** Validation of a body against the model: a member that is missing takes
    the default [None], [null] is [None]; other members are ignored. *)
Definition validate (body : gmap string json) : t :=
  mk (field body "message") (field body "start_date") (field body "expiration_date").
End AnnouncementUpdate.

(** ** The handlers *)

(** [announcement["_id"] = str(announcement["_id"])] *)
Definition stringify_id (announcement : doc) : res doc :=
  id ← dict_getitem announcement "_id";
  mret (<["_id" := VStr (py_str id)]> announcement).

(** The Date Filter: the two guards at the head of the loop body of
    [get_active_announcements].  [Ok false] is a [continue]: the
    announcement is skipped; [Ok true] lets it through. *)
Definition date_filter (now : string) (announcement : doc) : res bool :=
  let start_date := dict_get announcement "start_date" in
  let expiration_date := dict_get announcement "expiration_date" in
  match (if truthy start_date then py_lt now start_date else Ok false) with
  | Raise e => Raise e
  | Ok true => Ok false
  | Ok false =>
      match (if truthy expiration_date then py_gt now expiration_date else Ok false) with
      | Raise e => Raise e
      | Ok true => Ok false
      | Ok false => Ok true
      end
  end.

(** The loop of [get_active_announcements] over the documents read, with
    the list built so far. *)
Fixpoint active_loop (now : string) (announcements active_announcements : list doc)
  : res (list doc) :=
  match announcements with
  | [] => Ok active_announcements
  | announcement :: rest =>
      match date_filter now announcement with
      | Raise e => Raise e
      | Ok false => active_loop now rest active_announcements
      | Ok true =>
          match stringify_id announcement with
          | Raise e => Raise e
          | Ok announcement' =>
              active_loop now rest (active_announcements ++ [announcement'])
          end
      end
  end.

Definition get_active_announcements (now : string) : M (list doc) :=
  announcements ← find Announcements;
  lift (active_loop now announcements []).

(** The loop of [get_all_announcements]. *)
Fixpoint stringify_ids (announcements : list doc) : res (list doc) :=
  match announcements with
  | [] => Ok []
  | announcement :: rest =>
      match stringify_id announcement with
      | Raise e => Raise e
      | Ok announcement' =>
          match stringify_ids rest with
          | Raise e => Raise e
          | Ok rest' => Ok (announcement' :: rest')
          end
      end
  end.

Definition get_all_announcements (username : string) : M (list doc) :=
  teacher ← find_one Teachers (VStr username);
  if negb (truthy_doc teacher) then raise (HTTPException 401 "Unauthorized") else
  announcements ← find Announcements;
  lift (stringify_ids announcements).

Definition create_announcement (now : string) (new_id : bson.ObjectId)
    (announcement : AnnouncementCreate.t) (username : string) : M doc :=
  teacher ← find_one Teachers (VStr username);
  if negb (truthy_doc teacher) then raise (HTTPException 401 "Unauthorized") else
  let announcement_doc : doc :=
    <["created_at" := VStr now]>
    (<["created_by" := VStr username]>
    (<["expiration_date" := VStr (AnnouncementCreate.expiration_date announcement)]>
    (<["start_date" := of_optional (AnnouncementCreate.start_date announcement)]>
    (<["message" := VStr (AnnouncementCreate.message announcement)]> ∅)))) in
  inserted_id ← insert_one Announcements new_id announcement_doc;
  mret (<["_id" := VStr (py_str inserted_id)]> announcement_doc).

(** [if v is not None: update_doc[k] = v] *)
Definition set_if_supplied (k : string) (v : option string) (update_doc : doc) : doc :=
  match v with
  | Some s => <[k := VStr s]> update_doc
  | None => update_doc
  end.

Definition build_update_doc (announcement : AnnouncementUpdate.t) : doc :=
  set_if_supplied "expiration_date" (AnnouncementUpdate.expiration_date announcement)
  (set_if_supplied "start_date" (AnnouncementUpdate.start_date announcement)
  (set_if_supplied "message" (AnnouncementUpdate.message announcement) ∅)).

Definition update_announcement (now : string) (announcement_id : string)
    (announcement : AnnouncementUpdate.t) (username : string) : M (option doc) :=
  teacher ← find_one Teachers (VStr username);
  if negb (truthy_doc teacher) then raise (HTTPException 401 "Unauthorized") else
  let update_doc := build_update_doc announcement in
  if bool_decide (update_doc = ∅)
  then raise (HTTPException 400 "No fields to update") else
  let update_doc := <["updated_at" := VStr now]> update_doc in
  let update_doc := <["updated_by" := VStr username]> update_doc in
  oid ← ObjectId announcement_id;
  matched_count ← update_one Announcements (VOid oid) update_doc;
  if matched_count =? 0
  then raise (HTTPException 404 "Announcement not found") else
  oid ← ObjectId announcement_id;
  updated ← find_one Announcements (VOid oid);
  if truthy_doc updated
  then match updated with
       | Some u => u' ← lift (stringify_id u); mret (Some u')
       | None => mret None
       end
  else mret updated.

Definition delete_announcement (announcement_id : string) (username : string) : M doc :=
  teacher ← find_one Teachers (VStr username);
  if negb (truthy_doc teacher) then raise (HTTPException 401 "Unauthorized") else
  oid ← ObjectId announcement_id;
  deleted_count ← delete_one Announcements (VOid oid);
  if deleted_count =? 0
  then raise (HTTPException 404 "Announcement not found") else
  mret ({["message" := VStr "Announcement deleted successfully"]} : doc).

(** The status of the response: that of an [HTTPException]; an exception
    that no handler catches is answered with 500. *)
Definition status_code (e : exn) : N :=
  match e with
  | HTTPException s _ => s
  | _ => 500
  end.

Definition client_error (e : exn) : bool :=
  (400 <=? status_code e) && (status_code e <? 500).

Definition server_error (e : exn) : bool := 500 <=? status_code e.

(** ** The vocabulary of the specification *)

(** A date field "is set": it is present and not null. *)
Definition is_set (v : value) : bool :=
  match v with
  | VNone => false
  | _ => true
  end.

(** [a < v] and [a > v] "by string comparison". *)
Definition str_before (a : string) (v : value) : bool :=
  match v with
  | VStr s => String.ltb a s
  | _ => false
  end.

Definition str_after (a : string) (v : value) : bool :=
  match v with
  | VStr s => String.ltb s a
  | _ => false
  end.

(** "[start_date] is set and [now < start_date], or [expiration_date] is
    set and [now > expiration_date]" *)
Definition excluded (now : string) (announcement : doc) : bool :=
  let start_date := dict_get announcement "start_date" in
  let expiration_date := dict_get announcement "expiration_date" in
  (is_set start_date && str_before now start_date)
  || (is_set expiration_date && str_after now expiration_date).

(** A date field that is absent, null or a date string.  A date string in
    ISO-8601 format is not empty; nothing more of the format is needed. *)
Definition date_or_unset (v : value) : Prop :=
  match v with
  | VNone => True
  | VStr s => s ≠ ""
  | VOid _ => False
  end.

Definition dated (announcement : doc) : Prop :=
  date_or_unset (dict_get announcement "start_date")
  ∧ date_or_unset (dict_get announcement "expiration_date").

(** A date field that the comparisons of the Date Filter accept. *)
Definition comparable (v : value) : Prop :=
  match v with
  | VOid _ => False
  | _ => True
  end.

Definition comparable_dates (announcement : doc) : Prop :=
  comparable (dict_get announcement "start_date")
  ∧ comparable (dict_get announcement "expiration_date").

(** [now] is not before the start of the announcement, if it has one. *)
Definition started (now : string) (announcement : doc) : Prop :=
  match dict_get announcement "start_date" with
  | VNone => True
  | VStr s => String.ltb now s = false
  | VOid _ => False
  end.

(** A stored record as a response shows it: with [_id] as a string. *)
Definition rendered (r : value * doc) : doc := <["_id" := VStr (py_str r.1)]> r.2.

(** The accesses to the store made between [w] and a later [w']. *)
Definition accesses_since (w w' : world) : list (coll * access) :=
  drop (List.length (trace w)) (trace w').

Definition authorized (username : string) (w : world) : Prop :=
  is_Some (lookup_id (VStr username) (teachers_collection w)).

(** The handler ended in [e] after the look-up of the teacher and nothing
    else: no access to the announcements, and both collections as they
    were. *)
Definition rejected {A} (e : exn) (w : world) (out : res A * world) : Prop :=
  out.1 = Raise e
  ∧ accesses_since w out.2 = [(Teachers, FindOne)]
  ∧ announcements_collection out.2 = announcements_collection w
  ∧ teachers_collection out.2 = teachers_collection w.

(** A body that supplies none of the three fields. *)
Definition supplies_nothing (a : AnnouncementUpdate.t) : Prop :=
  AnnouncementUpdate.message a = None
  ∧ AnnouncementUpdate.start_date a = None
  ∧ AnnouncementUpdate.expiration_date a = None.

(** The fields a body supplies. *)
Definition supplied (a : AnnouncementUpdate.t) (k : string) : option string :=
  if decide (k = "message") then AnnouncementUpdate.message a
  else if decide (k = "start_date") then AnnouncementUpdate.start_date a
  else if decide (k = "expiration_date") then AnnouncementUpdate.expiration_date a
  else None.

(** The document that [update_announcement] hands to [$set]. *)
Definition update_doc_of (now username : string) (a : AnnouncementUpdate.t) : doc :=
  <["updated_by" := VStr username]> (<["updated_at" := VStr now]> (build_update_doc a)).

(** The handler ended with a result. *)
Definition succeeds {A} (out : res A * world) : Prop := ∃ a, out.1 = Ok a.

Definition not_found : exn := HTTPException 404 "Announcement not found".

(** The first access to the store that the handler made is the look-up of
    the teacher. *)
Definition first_access_is_teacher_lookup {A} (w : world) (out : res A * world) : Prop :=
  ∃ rest, accesses_since w out.2 = (Teachers, FindOne) :: rest.

(** ** A small school, for the examples *)

Definition alice : value * doc := (VStr "alice", {["role" := VStr "teacher"]}).

Definition exam_id : bson.ObjectId :=
  bson.mkObjectId [80; 127; 31; 119; 188; 248; 108; 215; 153; 67; 144; 17].

Definition trip_id : bson.ObjectId :=
  bson.mkObjectId [80; 127; 31; 119; 188; 248; 108; 215; 153; 67; 144; 18].

Definition notice_id : bson.ObjectId :=
  bson.mkObjectId [80; 127; 31; 119; 188; 248; 108; 215; 153; 67; 144; 19].

Definition exam : value * doc :=
  (VOid exam_id,
   <["message" := VStr "Exam Friday"]>
   (<["start_date" := VNone]>
   (<["expiration_date" := VStr "2099-01-01T00:00:00"]>
   (<["created_by" := VStr "alice"]>
   (<["created_at" := VStr "2025-01-01T10:00:00"]> ∅))))).

(** A record whose [expiration_date] is the empty string. *)
Definition notice : value * doc :=
  (VOid notice_id,
   <["message" := VStr "Library closed"]>
   (<["start_date" := VStr "2025-01-01T00:00:00"]>
   (<["expiration_date" := VStr ""]> ∅))).

Definition school : world := mkWorld [alice] [exam] [].

Definition school_with_notice : world := mkWorld [alice] [exam; notice] [].

Definition null_body : gmap string json :=
  <["message" := JNull]> (<["start_date" := JNull]> (<["expiration_date" := JNull]> ∅)).

Definition no_fields : AnnouncementUpdate.t := AnnouncementUpdate.mk None None None.

Definition new_message : AnnouncementUpdate.t :=
  AnnouncementUpdate.mk (Some "Exam moved to Monday") None None.

Definition trip : AnnouncementCreate.t :=
  AnnouncementCreate.mk "Museum trip" None "2025-07-01T00:00:00".

(** ** Further vocabulary *)

(** The identifiers of a collection, in the store's order. *)
Definition ids (l : collection) : list value := l.*1.

(** No two announcements have the same [_id]. *)
Definition unique_ids (w : world) : Prop := NoDup (ids (announcements_collection w)).

(** An identifier as the driver makes them: twelve bytes. *)
Definition twelve_bytes (o : bson.ObjectId) : Prop :=
  List.length (bson.binary o) = 12%nat ∧ Forall (λ b, b < 256) (bson.binary o).

(** The document that [create_announcement] builds. *)
Definition announcement_doc_of (now username : string) (a : AnnouncementCreate.t) : doc :=
  <["created_at" := VStr now]>
  (<["created_by" := VStr username]>
  (<["expiration_date" := VStr (AnnouncementCreate.expiration_date a)]>
  (<["start_date" := of_optional (AnnouncementCreate.start_date a)]>
  (<["message" := VStr (AnnouncementCreate.message a)]> ∅)))).

(** The store after a create that succeeded. *)
Definition created (now : string) (new_id : bson.ObjectId) (a : AnnouncementCreate.t)
    (username : string) (w : world) : world :=
  mkWorld (teachers_collection w)
    (announcements_collection w ++ [(VOid new_id, announcement_doc_of now username a)])
    (trace w ++ [(Teachers, FindOne); (Announcements, InsertOne)]).

(** An identifier object where a date should be. *)
Definition misdated : value * doc :=
  (VOid notice_id,
   <["message" := VStr "Assembly"]>
   (<["start_date" := VOid exam_id]>
   (<["expiration_date" := VStr "2099-01-01T00:00:00"]> ∅))).

(** Start after expiration. *)
Definition inverted : doc :=
  <["start_date" := VStr "2025-09-01T00:00:00"]>
  (<["expiration_date" := VStr "2025-06-30T00:00:00"]> ∅).

Definition school_misdated : world := mkWorld [alice] [exam; misdated] [].

Definition expire_exam : AnnouncementUpdate.t :=
  AnnouncementUpdate.mk None None (Some "2000-01-01T00:00:00").

(** * Properties *)

(** ** Object identifiers *)

Example exam_id_to_str : bson.to_str exam_id = "507f1f77bcf86cd799439011".
Proof. reflexivity. Qed.

Example exam_id_of_str : bson.of_str "507f1f77bcf86cd799439011" = Some exam_id.
Proof. reflexivity. Qed.

Example exam_id_of_upper_case : bson.of_str "507F1F77BCF86CD799439011" = Some exam_id.
Proof. reflexivity. Qed.

Example too_short_is_invalid : bson.of_str "abc" = None.
Proof. reflexivity. Qed.

Example not_hexadecimal_is_invalid : bson.of_str "507f1f77bcf86cd79943901z" = None.
Proof. reflexivity. Qed.

Lemma hex_digit_val (n : N) :
  n < 16 →
  bson.hex_val (bson.hex_digit n) = Some n ∧ bson.is_space (bson.hex_digit n) = false.
Proof.
  intros H.
  assert (n = 0 ∨ n = 1 ∨ n = 2 ∨ n = 3 ∨ n = 4 ∨ n = 5 ∨ n = 6 ∨ n = 7 ∨ n = 8
          ∨ n = 9 ∨ n = 10 ∨ n = 11 ∨ n = 12 ∨ n = 13 ∨ n = 14 ∨ n = 15) as Hn by lia.
  repeat (destruct Hn as [->|Hn]; [by vm_compute|]). subst. by vm_compute.
Qed.

Lemma fromhex_hexlify (bs : list N) :
  Forall (λ b, b < 256) bs → bson.fromhex (bson.hexlify bs) = Some bs.
Proof.
  induction 1 as [|b bs Hb Hbs IH]; [done|].
  assert (b / 16 < 16) as Hq by (apply N.Div0.div_lt_upper_bound; lia).
  assert (b mod 16 < 16) as Hr by (apply N.mod_lt; lia).
  destruct (hex_digit_val _ Hq) as [Hq1 Hq2], (hex_digit_val _ Hr) as [Hr1 _].
  change (bson.hexlify (b :: bs))
    with (String (bson.hex_digit (b / 16))
            (String (bson.hex_digit (b mod 16)) (bson.hexlify bs))).
  cbn [bson.fromhex]. rewrite Hq2, Hq1, Hr1, IH.
  by rewrite <- N.Div0.div_mod.
Qed.

Lemma hexlify_length (bs : list N) :
  String.length (bson.hexlify bs) = (2 * List.length bs)%nat.
Proof. induction bs as [|b bs IH]; simpl; [done|]. rewrite IH. lia. Qed.

(** The string of an identifier of twelve bytes converts back to it. *)
Lemma of_str_to_str (o : bson.ObjectId) :
  List.length (bson.binary o) = 12%nat →
  Forall (λ b, b < 256) (bson.binary o) →
  bson.of_str (bson.to_str o) = Some o.
Proof.
  intros Hl Hb. unfold bson.of_str, bson.to_str.
  rewrite hexlify_length, Hl. simpl. rewrite fromhex_hexlify by done.
  by destruct o.
Qed.

(** ** Strings *)

Lemma ascii_compare_refl (c : ascii) : Ascii.compare c c = Eq.
Proof. unfold Ascii.compare. apply N.compare_refl. Qed.

Lemma string_compare_refl (s : string) : String.compare s s = Eq.
Proof.
  induction s as [|c s IH]; simpl; [reflexivity|].
  by rewrite ascii_compare_refl.
Qed.

Lemma ltb_irrefl (s : string) : String.ltb s s = false.
Proof. unfold String.ltb. by rewrite string_compare_refl. Qed.

Lemma eqb_empty_false (s : string) : s ≠ "" → String.eqb s "" = false.
Proof. intros H. by apply String.eqb_neq. Qed.

(** ** The store *)

Lemma with_id_lookup_id (r : value * doc) : with_id r !! "_id" = Some r.1.
Proof. apply lookup_insert_eq. Qed.

Lemma with_id_lookup_ne (r : value * doc) (k : string) :
  k ≠ "_id" → with_id r !! k = r.2 !! k.
Proof. intros H. unfold with_id. by rewrite lookup_insert_ne. Qed.

Lemma with_id_nonempty (r : value * doc) : with_id r ≠ ∅.
Proof. apply insert_non_empty. Qed.

Lemma truthy_doc_with_id (r : value * doc) : truthy_doc (Some (with_id r)) = true.
Proof.
  simpl. by rewrite (bool_decide_eq_false_2 _ (with_id_nonempty r)).
Qed.

Lemma stringify_id_with_id (r : value * doc) :
  stringify_id (with_id r) = Ok (rendered r).
Proof.
  unfold stringify_id, dict_getitem. rewrite with_id_lookup_id. simpl.
  unfold mret, res_ret, rendered, with_id. by rewrite insert_insert_eq.
Qed.

Lemma date_filter_with_id (now : string) (r : value * doc) :
  date_filter now (with_id r) = date_filter now r.2.
Proof.
  unfold date_filter, dict_get. by rewrite !with_id_lookup_ne.
Qed.

(** ** The Date Filter *)

Lemma dated_comparable (d : doc) : dated d → comparable_dates d.
Proof.
  unfold dated, comparable_dates. intros [Hs He].
  split; [destruct (dict_get d "start_date")|destruct (dict_get d "expiration_date")];
    done.
Qed.

(** On dates it can compare, the filter tests truthiness and order. *)
Lemma date_filter_comparable (now : string) (d : doc) :
  comparable_dates d →
  date_filter now d =
    Ok (negb ((truthy (dict_get d "start_date") && str_before now (dict_get d "start_date"))
              || (truthy (dict_get d "expiration_date")
                  && str_after now (dict_get d "expiration_date")))).
Proof.
  unfold comparable_dates, date_filter. intros [Hs He].
  destruct (dict_get d "start_date") as [|s|?]; [| |done];
    destruct (dict_get d "expiration_date") as [|e|?]; try done; simpl.
  - destruct (String.eqb e ""); simpl; [done|]. by destruct (String.ltb e now).
  - destruct (String.eqb s ""); simpl; [done|]. by destruct (String.ltb now s).
  - destruct (String.eqb s ""); simpl.
    + destruct (String.eqb e ""); simpl; [done|]. by destruct (String.ltb e now).
    + destruct (String.ltb now s); simpl; [done|].
      destruct (String.eqb e ""); simpl; [done|]. by destruct (String.ltb e now).
Qed.

(** On dates that are unset or date strings, "truthy" and "set" agree. *)
Lemma date_filter_dated (now : string) (d : doc) :
  dated d → date_filter now d = Ok (negb (excluded now d)).
Proof.
  intros Hd. rewrite date_filter_comparable by by apply dated_comparable.
  unfold excluded. destruct Hd as [Hs He].
  destruct (dict_get d "start_date") as [|s|?]; [| |done];
    destruct (dict_get d "expiration_date") as [|e|?]; try done; simpl in *;
    rewrite ?eqb_empty_false by done; done.
Qed.

Lemma active_loop_filter (now : string) (l : collection) (acc : list doc) :
  Forall (λ r, comparable_dates r.2) l →
  active_loop now (with_id <$> l) acc =
    Ok (acc ++ (rendered <$> filter (λ r, date_filter now r.2 = Ok true) l)).
Proof.
  intros Hl. revert acc. induction Hl as [|r l Hr Hl IH]; intros acc; simpl.
  - by rewrite app_nil_r.
  - rewrite date_filter_with_id, filter_cons.
    destruct (decide (date_filter now r.2 = Ok true)) as [Ht|Hf].
    + rewrite Ht, stringify_id_with_id, IH. simpl. by rewrite <- app_assoc.
    + rewrite date_filter_comparable in Hf |- * by done.
      destruct (negb _); [done|]. apply IH.
Qed.

Lemma get_active_announcements_filter (now : string) (w : world) :
  Forall (λ r, comparable_dates r.2) (announcements_collection w) →
  get_active_announcements now w =
    (Ok (rendered <$> filter (λ r, date_filter now r.2 = Ok true) (announcements_collection w)),
     record Announcements Find w).
Proof.
  intros Hl. unfold get_active_announcements, mbind, M_bind, find, lift. simpl.
  by rewrite active_loop_filter.
Qed.

Lemma active_in_response (now : string) (w : world) (r : value * doc) :
  Forall (λ r, comparable_dates r.2) (announcements_collection w) →
  r ∈ announcements_collection w →
  date_filter now r.2 = Ok true →
  ∃ l, (get_active_announcements now w).1 = Ok l ∧ rendered r ∈ l.
Proof.
  intros Hl Hr Ht. rewrite get_active_announcements_filter by done.
  eexists; split; [reflexivity|].
  apply list_elem_of_fmap. exists r. split; [done|].
  by apply list_elem_of_filter.
Qed.

Lemma filter_dated (now : string) (l : collection) :
  Forall (λ r, dated r.2) l →
  filter (λ r, date_filter now r.2 = Ok true) l = filter (λ r, excluded now r.2 = false) l.
Proof.
  induction 1 as [|r l Hr Hl IH]; [done|].
  rewrite !filter_cons, IH, date_filter_dated by done.
  destruct (excluded now r.2); simpl; repeat case_decide; done.
Qed.

(** C1.  On records whose date fields are unset or date strings, the
    response of list-active is made of exactly the records that the rule of
    the specification does not exclude: a record is excluded iff its
    [start_date] is set and [now < start_date], or its [expiration_date]
    is set and [now > expiration_date], both by string comparison; the
    others are in the response, in the store's order, with [_id] as a
    string.  The filter itself answers the negation of that rule on each
    such record. *)
Theorem date_filter_excludes_iff (now : string) (w : world) :
  Forall (λ r, dated r.2) (announcements_collection w) →
  (∀ r, r ∈ announcements_collection w →
        date_filter now r.2 = Ok (negb (excluded now r.2)))
  ∧ get_active_announcements now w =
      (Ok (rendered <$> filter (λ r, excluded now r.2 = false) (announcements_collection w)),
       record Announcements Find w).
Proof.
  intros Hl. split.
  - intros r Hr. apply date_filter_dated.
    by apply (proj1 (Forall_forall _ _) Hl).
  - rewrite get_active_announcements_filter
      by (eapply Forall_impl; [exact Hl|]; intros r; apply dated_comparable).
    by rewrite filter_dated.
Qed.

Lemma date_filter_at_expiration (now : string) (d : doc) :
  dict_get d "expiration_date" = VStr now →
  started now d →
  date_filter now d = Ok true.
Proof.
  unfold started, date_filter. intros -> Hs.
  destruct (dict_get d "start_date") as [|s|?]; [| |done]; simpl.
  - rewrite ltb_irrefl. by destruct (String.eqb now "").
  - rewrite Hs, ltb_irrefl.
    by destruct (String.eqb s ""), (String.eqb now "").
Qed.

Lemma date_filter_empty_field (now : string) (d : doc) (k : string) :
  date_filter now (<[k := VStr ""]> d) = date_filter now (delete k d).
Proof.
  unfold date_filter, dict_get.
  destruct (decide (k = "start_date")) as [->|Hs];
    [|destruct (decide (k = "expiration_date")) as [->|He]].
  - rewrite lookup_insert_eq, lookup_delete_eq.
    by rewrite lookup_insert_ne, lookup_delete_ne.
  - rewrite lookup_insert_eq, lookup_delete_eq.
    by rewrite lookup_insert_ne, lookup_delete_ne.
  - by rewrite !lookup_insert_ne, !lookup_delete_ne.
Qed.

Lemma date_filter_empty_expiration (now : string) (d : doc) :
  dict_get d "expiration_date" = VStr "" →
  started now d →
  date_filter now d = Ok true.
Proof.
  unfold started, date_filter. intros -> Hs.
  destruct (dict_get d "start_date") as [|s|?]; [done| |done]; simpl.
  rewrite Hs. by destruct (String.eqb s "").
Qed.

(** C4, as the code has it.  At the instant of its expiration an
    announcement is not expired: the filter lets it through, and
    list-active shows it, as soon as [now] is not before its start. *)
Theorem expiration_instant_is_active (now : string) (w : world) (r : value * doc) :
  Forall (λ r, comparable_dates r.2) (announcements_collection w) →
  r ∈ announcements_collection w →
  dict_get r.2 "expiration_date" = VStr now →
  started now r.2 →
  date_filter now r.2 = Ok true
  ∧ ∃ l, (get_active_announcements now w).1 = Ok l ∧ rendered r ∈ l.
Proof.
  intros Hl Hr He Hs.
  assert (date_filter now r.2 = Ok true) as Ht by by apply date_filter_at_expiration.
  split; [done|]. by apply active_in_response.
Qed.

(** C10.  The guards test truthiness: an empty string in [start_date] or
    in [expiration_date] is filtered as if the field were absent.  So a
    record stored with the empty string as [expiration_date] is never
    skipped as expired: the filter lets it through, and list-active shows
    it, at every instant that is not before its start. *)
Theorem empty_expiration_never_expires (now : string) (w : world) (r : value * doc) :
  Forall (λ r, comparable_dates r.2) (announcements_collection w) →
  r ∈ announcements_collection w →
  dict_get r.2 "expiration_date" = VStr "" →
  started now r.2 →
  (∀ now' d k, date_filter now' (<[k := VStr ""]> d) = date_filter now' (delete k d))
  ∧ (∀ now', date_filter now' r.2 = date_filter now' (delete "expiration_date" r.2))
  ∧ date_filter now r.2 = Ok true
  ∧ ∃ l, (get_active_announcements now w).1 = Ok l ∧ rendered r ∈ l.
Proof.
  intros Hl Hr He Hs.
  assert (date_filter now r.2 = Ok true) as Ht by by apply date_filter_empty_expiration.
  split; [intros now' d k; apply date_filter_empty_field|].
  split; [|split; [done|by apply active_in_response]].
  intros now'. rewrite <- (date_filter_empty_field now' r.2 "expiration_date").
  f_equal. symmetry. apply insert_id.
  unfold dict_get in He. by destruct (r.2 !! "expiration_date") as [v|]; simplify_eq/=.
Qed.

(** ** Authorization *)

Lemma accesses_since_record (c : coll) (a : access) (w : world) :
  accesses_since w (record c a w) = [(c, a)].
Proof. unfold accesses_since, record. simpl. by rewrite drop_app_length. Qed.

Lemma rejected_intro {A} (e : exn) (w : world) :
  rejected (A := A) e w (Raise e, record Teachers FindOne w).
Proof.
  unfold rejected. simpl. by rewrite accesses_since_record.
Qed.

Lemma find_teacher_None (username : string) (w : world) :
  lookup_id (VStr username) (teachers_collection w) = None →
  find_one Teachers (VStr username) w = (Ok None, record Teachers FindOne w).
Proof. intros H. unfold find_one. simpl. by rewrite H. Qed.

Lemma find_teacher_Some (username : string) (w : world) :
  authorized username w →
  ∃ t, find_one Teachers (VStr username) w = (Ok (Some t), record Teachers FindOne w)
       ∧ truthy_doc (Some t) = true.
Proof.
  intros [r Hr]. exists (with_id r). unfold find_one. simpl. rewrite Hr.
  split; [done|apply truthy_doc_with_id].
Qed.

Ltac first_access :=
  unfold first_access_is_teacher_lookup, accesses_since; simpl;
  rewrite <- ?app_assoc, drop_app_length; simpl; eexists; reflexivity.

(** X15.  Whatever the username, no handler reaches the announcements
    before it has looked the teacher up. *)
Lemma teacher_lookup_comes_first (username : string) (w : world) :
  first_access_is_teacher_lookup w (get_all_announcements username w)
  ∧ (∀ now new_id a,
       first_access_is_teacher_lookup w (create_announcement now new_id a username w))
  ∧ (∀ now id a,
       first_access_is_teacher_lookup w (update_announcement now id a username w))
  ∧ (∀ id, first_access_is_teacher_lookup w (delete_announcement id username w)).
Proof.
  unfold get_all_announcements, create_announcement, update_announcement,
    delete_announcement, mbind, M_bind, find_one, find, lift, raise, insert_one,
    update_one, delete_one, ObjectId, mret, M_ret.
  simpl.
  destruct (negb (truthy_doc _)); simpl.
  { repeat split; intros; first_access. }
  split; [|split; [|split]]; intros.
  - destruct (stringify_ids _); first_access.
  - simpl. destruct (lookup_id _ _); first_access.
  - destruct (bool_decide _); [first_access|].
    destruct (bson.of_str id); simpl; [|first_access].
    destruct (set_first _ _ _) as [n l]. simpl.
    destruct (n =? 0); simpl; [first_access|].
    destruct (truthy_doc _); simpl; [|first_access].
    destruct (lookup_id _ _); simpl; [|first_access].
    destruct (stringify_id _); first_access.
  - destruct (bson.of_str id); simpl; [|first_access].
    destruct (remove_first _ _) as [n l]. simpl.
    destruct (n =? 0); first_access.
Qed.

Lemma unauthorized_update (now id : string) (a : AnnouncementUpdate.t)
    (username : string) (w : world) :
  lookup_id (VStr username) (teachers_collection w) = None →
  rejected (HTTPException 401 "Unauthorized") w (update_announcement now id a username w).
Proof.
  intros H. unfold update_announcement, mbind, M_bind.
  rewrite (find_teacher_None _ _ H). simpl. apply rejected_intro.
Qed.

(** C2.  Each of the four protected handlers, called with a username that
    no teacher record has, ends in 401 Unauthorized; the look-up of the
    teacher is its only access to the store, and the announcements are as
    they were. *)
Theorem unknown_username_is_rejected (username : string) (w : world) :
  lookup_id (VStr username) (teachers_collection w) = None →
  rejected (HTTPException 401 "Unauthorized") w (get_all_announcements username w)
  ∧ (∀ now new_id a,
       rejected (HTTPException 401 "Unauthorized") w
         (create_announcement now new_id a username w))
  ∧ (∀ now announcement_id a,
       rejected (HTTPException 401 "Unauthorized") w
         (update_announcement now announcement_id a username w))
  ∧ (∀ announcement_id,
       rejected (HTTPException 401 "Unauthorized") w
         (delete_announcement announcement_id username w)).
Proof.
  intros H.
  unfold get_all_announcements, create_announcement, update_announcement,
    delete_announcement, mbind, M_bind.
  rewrite (find_teacher_None _ _ H). simpl.
  repeat split; intros; apply rejected_intro.
Qed.

(** ** Look-up, update and removal of the first match *)

Lemma lookup_id_split (id : value) (l : collection) (r : value * doc) :
  lookup_id id l = Some r →
  ∃ l1 l2, l = l1 ++ r :: l2 ∧ lookup_id id l1 = None ∧ r.1 = id.
Proof.
  induction l as [|x l IH]; simpl; [done|].
  destruct (decide (x.1 = id)) as [Hx|Hx].
  - intros [= ->]. by exists [], l.
  - intros H. destruct (IH H) as (l1 & l2 & -> & Hl1 & Hr).
    exists (x :: l1), l2. simpl. by rewrite decide_False.
Qed.

Lemma lookup_id_app (id : value) (l1 l2 : collection) (r : value * doc) :
  lookup_id id l1 = None → r.1 = id → lookup_id id (l1 ++ r :: l2) = Some r.
Proof.
  induction l1 as [|x l1 IH]; simpl; intros Hl1 Hr.
  - by rewrite decide_True.
  - destruct (decide (x.1 = id)); [done|]. by apply IH.
Qed.

Lemma set_first_None (id : value) (upd : doc) (l : collection) :
  lookup_id id l = None → set_first id upd l = (0, l).
Proof.
  induction l as [|x l IH]; simpl; [done|].
  destruct (decide (x.1 = id)); [done|]. intros H. by rewrite IH.
Qed.

Lemma set_first_app (id : value) (upd : doc) (l1 l2 : collection) (r : value * doc) :
  lookup_id id l1 = None → r.1 = id →
  set_first id upd (l1 ++ r :: l2) = (1, l1 ++ (r.1, upd ∪ r.2) :: l2).
Proof.
  induction l1 as [|x l1 IH]; simpl; intros Hl1 Hr.
  - by rewrite decide_True.
  - destruct (decide (x.1 = id)); [done|]. by rewrite IH.
Qed.

Lemma remove_first_None (id : value) (l : collection) :
  lookup_id id l = None → remove_first id l = (0, l).
Proof.
  induction l as [|x l IH]; simpl; [done|].
  destruct (decide (x.1 = id)); [done|]. intros H. by rewrite IH.
Qed.

Lemma remove_first_app (id : value) (l1 l2 : collection) (r : value * doc) :
  lookup_id id l1 = None → r.1 = id →
  remove_first id (l1 ++ r :: l2) = (1, l1 ++ l2).
Proof.
  induction l1 as [|x l1 IH]; simpl; intros Hl1 Hr.
  - by rewrite decide_True.
  - destruct (decide (x.1 = id)); [done|]. by rewrite IH.
Qed.

(** ** Update and delete *)

Lemma build_update_doc_empty (a : AnnouncementUpdate.t) :
  build_update_doc a = ∅ ↔ supplies_nothing a.
Proof.
  unfold supplies_nothing, build_update_doc.
  destruct a as [[m|] [s|] [e|]]; simpl; split;
    try (by intros H; apply insert_non_empty in H);
    try (by intros (? & ? & ?)); done.
Qed.

Lemma build_update_doc_lookup (a : AnnouncementUpdate.t) (k : string) :
  build_update_doc a !! k = VStr <$> supplied a k.
Proof.
  unfold build_update_doc, supplied.
  destruct a as [m s e]; simpl.
  destruct (decide (k = "message")) as [->|Hm];
    [|destruct (decide (k = "start_date")) as [->|Hs];
      [|destruct (decide (k = "expiration_date")) as [->|He]]];
    destruct m, s, e; simpl; by simplify_map_eq.
Qed.

Section Authorized.

Context (username : string) (w : world) (Hu : authorized username w).

Lemma update_announcement_nothing (now id : string) (a : AnnouncementUpdate.t) :
  supplies_nothing a →
  update_announcement now id a username w =
    (Raise (HTTPException 400 "No fields to update"), record Teachers FindOne w).
Proof.
  destruct (find_teacher_Some _ _ Hu) as (t & Ht & Htr).
  intros Ha%build_update_doc_empty.
  unfold update_announcement, mbind, M_bind. rewrite Ht, Htr. simpl.
  by rewrite bool_decide_eq_true_2.
Qed.

Lemma update_announcement_invalid_id (now id : string) (a : AnnouncementUpdate.t) :
  ¬ supplies_nothing a →
  bson.of_str id = None →
  update_announcement now id a username w = (Raise InvalidId, record Teachers FindOne w).
Proof.
  destruct (find_teacher_Some _ _ Hu) as (t & Ht & Htr).
  intros Ha Hid.
  unfold update_announcement, mbind, M_bind. rewrite Ht, Htr. simpl.
  rewrite bool_decide_eq_false_2 by by rewrite build_update_doc_empty.
  unfold ObjectId. by rewrite Hid.
Qed.

Lemma update_announcement_not_found (now id : string) (a : AnnouncementUpdate.t)
    (o : bson.ObjectId) :
  ¬ supplies_nothing a →
  bson.of_str id = Some o →
  lookup_id (VOid o) (announcements_collection w) = None →
  update_announcement now id a username w =
    (Raise (HTTPException 404 "Announcement not found"),
     record Announcements UpdateOne (record Teachers FindOne w)).
Proof.
  destruct (find_teacher_Some _ _ Hu) as (t & Ht & Htr).
  intros Ha Hid Hl.
  unfold update_announcement, mbind, M_bind. rewrite Ht, Htr. simpl.
  rewrite bool_decide_eq_false_2 by by rewrite build_update_doc_empty.
  unfold ObjectId. rewrite Hid. simpl.
  unfold update_one. simpl. rewrite set_first_None by done. simpl.
  by destruct w.
Qed.

Lemma update_announcement_found (now id : string) (a : AnnouncementUpdate.t)
    (o : bson.ObjectId) (l1 l2 : collection) (r : value * doc) :
  ¬ supplies_nothing a →
  bson.of_str id = Some o →
  announcements_collection w = l1 ++ r :: l2 →
  lookup_id (VOid o) l1 = None →
  r.1 = VOid o →
  let r' := (r.1, update_doc_of now username a ∪ r.2) in
  update_announcement now id a username w =
    (Ok (Some (rendered r')),
     mkWorld (teachers_collection w) (l1 ++ r' :: l2)
       (trace w ++ [(Teachers, FindOne); (Announcements, UpdateOne); (Announcements, FindOne)])).
Proof.
  destruct (find_teacher_Some _ _ Hu) as (t & Ht & Htr).
  intros Ha Hid Hw Hl1 Hr r'.
  unfold update_announcement, mbind, M_bind. rewrite Ht, Htr. simpl.
  rewrite bool_decide_eq_false_2 by by rewrite build_update_doc_empty.
  unfold ObjectId. rewrite Hid. simpl.
  unfold update_one. simpl. rewrite Hw, (set_first_app _ _ _ _ _ Hl1 Hr). simpl.
  unfold find_one. simpl.
  fold (update_doc_of now username a). fold r'.
  rewrite (lookup_id_app (VOid o) l1 l2 r') by done. simpl.
  rewrite (bool_decide_eq_false_2 _ (with_id_nonempty r')). simpl.
  unfold lift. rewrite stringify_id_with_id. simpl.
  unfold mret, M_ret, record. simpl. by rewrite <- !app_assoc.
Qed.

Lemma delete_announcement_invalid_id (id : string) :
  bson.of_str id = None →
  delete_announcement id username w = (Raise InvalidId, record Teachers FindOne w).
Proof.
  destruct (find_teacher_Some _ _ Hu) as (t & Ht & Htr).
  intros Hid.
  unfold delete_announcement, mbind, M_bind. rewrite Ht, Htr. simpl.
  unfold ObjectId. by rewrite Hid.
Qed.

Lemma delete_announcement_not_found (id : string) (o : bson.ObjectId) :
  bson.of_str id = Some o →
  lookup_id (VOid o) (announcements_collection w) = None →
  delete_announcement id username w =
    (Raise (HTTPException 404 "Announcement not found"),
     record Announcements DeleteOne (record Teachers FindOne w)).
Proof.
  destruct (find_teacher_Some _ _ Hu) as (t & Ht & Htr).
  intros Hid Hl.
  unfold delete_announcement, mbind, M_bind. rewrite Ht, Htr. simpl.
  unfold ObjectId. rewrite Hid. simpl.
  unfold delete_one. simpl. rewrite remove_first_None by done. simpl.
  by destruct w.
Qed.

Lemma delete_announcement_found (id : string) (o : bson.ObjectId)
    (l1 l2 : collection) (r : value * doc) :
  bson.of_str id = Some o →
  announcements_collection w = l1 ++ r :: l2 →
  lookup_id (VOid o) l1 = None →
  r.1 = VOid o →
  delete_announcement id username w =
    (Ok {["message" := VStr "Announcement deleted successfully"]},
     mkWorld (teachers_collection w) (l1 ++ l2)
       (trace w ++ [(Teachers, FindOne); (Announcements, DeleteOne)])).
Proof.
  destruct (find_teacher_Some _ _ Hu) as (t & Ht & Htr).
  intros Hid Hw Hl1 Hr.
  unfold delete_announcement, mbind, M_bind. rewrite Ht, Htr. simpl.
  unfold ObjectId. rewrite Hid. simpl.
  unfold delete_one. simpl. rewrite Hw, (remove_first_app _ _ _ _ Hl1 Hr). simpl.
  unfold mret, M_ret, record. simpl. by rewrite <- !app_assoc.
Qed.

Lemma update_announcement_nothing_rejected (now id : string) (a : AnnouncementUpdate.t) :
  supplies_nothing a →
  rejected (HTTPException 400 "No fields to update") w
    (update_announcement now id a username w).
Proof.
  intros Ha. rewrite update_announcement_nothing by done. apply rejected_intro.
Qed.

End Authorized.

(** ** Identifiers that do not convert *)

(** C3, as the code has it.  [ObjectId] is called with no handler around
    it.  With an identifier that does not convert, a delete request, and an
    update request that supplies a field, of an authorized username end in
    [InvalidId], which is answered as a server error, before any access to
    the announcements; an update request that supplies no field has been
    refused with 400 before the identifier is looked at. *)
Theorem unconvertible_identifier (announcement_id username : string) (w : world) :
  authorized username w →
  bson.of_str announcement_id = None →
  rejected InvalidId w (delete_announcement announcement_id username w)
  ∧ (∀ now a, ¬ supplies_nothing a →
       rejected InvalidId w (update_announcement now announcement_id a username w))
  ∧ (∀ now a, supplies_nothing a →
       rejected (HTTPException 400 "No fields to update") w
         (update_announcement now announcement_id a username w))
  ∧ status_code InvalidId = 500
  ∧ client_error InvalidId = false
  ∧ client_error (HTTPException 400 "No fields to update") = true.
Proof.
  intros Hu Hid. split; [|split; [|split; [|done]]].
  - rewrite delete_announcement_invalid_id by done. apply rejected_intro.
  - intros now a Ha. rewrite update_announcement_invalid_id by done.
    apply rejected_intro.
  - intros now a Ha. rewrite update_announcement_nothing by done.
    apply rejected_intro.
Qed.

(** ** Bodies without fields *)

(** C5.  An update request of an authorized username whose body supplies
    none of [message], [start_date] and [expiration_date] ends in
    400 "No fields to update"; the look-up of the teacher is its only
    access to the store, and the announcements are as they were. *)
Theorem empty_update_is_refused (now announcement_id username : string)
    (a : AnnouncementUpdate.t) (w : world) :
  authorized username w →
  supplies_nothing a →
  rejected (HTTPException 400 "No fields to update") w
    (update_announcement now announcement_id a username w).
Proof.
  intros Hu Ha. by apply update_announcement_nothing_rejected.
Qed.

Lemma validate_nulls (body : gmap string json) :
  body !! "message" = Some JNull →
  body !! "start_date" = Some JNull →
  body !! "expiration_date" = Some JNull →
  AnnouncementUpdate.validate body = AnnouncementUpdate.validate ∅.
Proof.
  intros Hm Hs He. unfold AnnouncementUpdate.validate, AnnouncementUpdate.field.
  by rewrite Hm, Hs, He, !lookup_empty.
Qed.

(** C9.  A body that gives [null] for each of [message], [start_date] and
    [expiration_date] validates to the same model as the empty body, so
    the update behaves as with the empty body on every store; for an
    authorized username that is 400 "No fields to update", with nothing
    written. *)
Theorem null_update_is_empty_update (body : gmap string json)
    (now announcement_id username : string) (w : world) :
  body !! "message" = Some JNull →
  body !! "start_date" = Some JNull →
  body !! "expiration_date" = Some JNull →
  build_update_doc (AnnouncementUpdate.validate body) = ∅
  ∧ update_announcement now announcement_id (AnnouncementUpdate.validate body) username w
    = update_announcement now announcement_id (AnnouncementUpdate.validate ∅) username w
  ∧ (authorized username w →
     rejected (HTTPException 400 "No fields to update") w
       (update_announcement now announcement_id (AnnouncementUpdate.validate body) username w)).
Proof.
  intros Hm Hs He. rewrite (validate_nulls body Hm Hs He).
  split; [done|split; [done|]].
  intros Hu. by apply update_announcement_nothing_rejected.
Qed.

(** ** Identifiers that match nothing *)

(** C7, as the code has it.  For an authorized username and an identifier
    that converts: a delete request succeeds iff a record has the
    identifier, and then the first such record, and nothing else, is gone
    from the store; when no record has it the request ends in
    404 "Announcement not found" and the announcements are as they were.
    An update request that supplies a field succeeds iff a record has the
    identifier, and ends in the same 404 when none has. *)
Theorem unmatched_identifier (announcement_id username : string) (w : world)
    (o : bson.ObjectId) :
  authorized username w →
  bson.of_str announcement_id = Some o →
  let stored := announcements_collection w in
  let deleted := delete_announcement announcement_id username w in
  (succeeds deleted ↔ is_Some (lookup_id (VOid o) stored))
  ∧ (lookup_id (VOid o) stored = None →
       deleted.1 = Raise not_found ∧ announcements_collection deleted.2 = stored)
  ∧ (∀ r, lookup_id (VOid o) stored = Some r →
       ∃ l1 l2, stored = l1 ++ r :: l2 ∧ lookup_id (VOid o) l1 = None
                ∧ announcements_collection deleted.2 = l1 ++ l2)
  ∧ (∀ now a, ¬ supplies_nothing a →
       let updated := update_announcement now announcement_id a username w in
       (succeeds updated ↔ is_Some (lookup_id (VOid o) stored))
       ∧ (lookup_id (VOid o) stored = None →
            updated.1 = Raise not_found ∧ announcements_collection updated.2 = stored)).
Proof.
  intros Hu Hid stored deleted. subst stored deleted.
  destruct (lookup_id (VOid o) (announcements_collection w)) as [r|] eqn:Hl.
  - destruct (lookup_id_split _ _ _ Hl) as (l1 & l2 & Hw & Hl1 & Hr).
    rewrite (delete_announcement_found _ _ Hu _ _ _ _ _ Hid Hw Hl1 Hr). simpl.
    split; [split; [eauto|intros _; eexists; reflexivity]|].
    split; [done|]. split.
    + intros r0 [= <-]. by exists l1, l2.
    + intros now a Ha.
      rewrite (update_announcement_found _ _ Hu _ _ _ _ _ _ _ Ha Hid Hw Hl1 Hr). simpl.
      split; [split; [eauto|intros _; eexists; reflexivity]|done].
  - rewrite (delete_announcement_not_found _ _ Hu _ _ Hid Hl). simpl.
    split; [split; [by intros [? ?]|by intros [? ?]]|].
    split; [done|]. split; [done|].
    intros now a Ha.
    rewrite (update_announcement_not_found _ _ Hu _ _ _ _ Ha Hid Hl). simpl.
    split; [split; [by intros [? ?]|by intros [? ?]]|done].
Qed.

(** ** What an update changes *)

Lemma update_doc_of_lookup (now username : string) (a : AnnouncementUpdate.t)
    (old : doc) (k : string) :
  (update_doc_of now username a ∪ old) !! k =
    if decide (k = "updated_by") then Some (VStr username)
    else if decide (k = "updated_at") then Some (VStr now)
    else match supplied a k with
         | Some s => Some (VStr s)
         | None => old !! k
         end.
Proof.
  unfold update_doc_of. rewrite lookup_union.
  destruct (decide (k = "updated_by")) as [->|Hby].
  { rewrite lookup_insert_eq. by destruct (old !! "updated_by"). }
  rewrite lookup_insert_ne by done.
  destruct (decide (k = "updated_at")) as [->|Hat].
  { rewrite lookup_insert_eq. by destruct (old !! "updated_at"). }
  rewrite lookup_insert_ne by done.
  rewrite build_update_doc_lookup.
  destruct (supplied a k); simpl; by destruct (old !! k).
Qed.

(** Every way to success of [update_announcement]. *)
Lemma update_announcement_Ok (now id username : string) (a : AnnouncementUpdate.t)
    (w w' : world) (u : option doc) :
  update_announcement now id a username w = (Ok u, w') →
  ∃ o l1 l2 r,
    authorized username w ∧ ¬ supplies_nothing a ∧ bson.of_str id = Some o
    ∧ announcements_collection w = l1 ++ r :: l2
    ∧ lookup_id (VOid o) l1 = None ∧ r.1 = VOid o.
Proof.
  intros H.
  destruct (lookup_id (VStr username) (teachers_collection w)) as [t|] eqn:Ht.
  2:{ destruct (unauthorized_update now id a username w Ht) as [Hr _].
      rewrite H in Hr. done. }
  assert (authorized username w) as Hu by (by exists t).
  destruct (decide (build_update_doc a = ∅)) as [He|He].
  { apply build_update_doc_empty in He.
    rewrite update_announcement_nothing in H by done. done. }
  rewrite build_update_doc_empty in He.
  destruct (bson.of_str id) as [o|] eqn:Hid.
  2:{ rewrite update_announcement_invalid_id in H by done. done. }
  destruct (lookup_id (VOid o) (announcements_collection w)) as [r|] eqn:Hl.
  2:{ rewrite (update_announcement_not_found _ _ Hu _ _ _ _ He Hid Hl) in H. done. }
  destruct (lookup_id_split _ _ _ Hl) as (l1 & l2 & Hw & Hl1 & Hr).
  by exists o, l1, l2, r.
Qed.

(** C6.  A successful update changed one stored record, the first with
    the identifier, and nothing else in the store.  In that record
    [updated_by] is the requesting username and [updated_at] the current
    instant, every field that the body supplies has the supplied value,
    and every other field is as it was.  With a body that supplies only
    [message]: the message is replaced and [start_date],
    [expiration_date], [created_by] and [created_at] are as they were.
    The response is the record as it now is, with [_id] as a string. *)
Theorem update_changes_supplied_fields (now announcement_id username : string)
    (a : AnnouncementUpdate.t) (w w' : world) (u : option doc) :
  update_announcement now announcement_id a username w = (Ok u, w') →
  ∃ o l1 l2 old new,
    bson.of_str announcement_id = Some o
    ∧ lookup_id (VOid o) l1 = None
    ∧ announcements_collection w = l1 ++ (VOid o, old) :: l2
    ∧ announcements_collection w' = l1 ++ (VOid o, new) :: l2
    ∧ teachers_collection w' = teachers_collection w
    ∧ u = Some (rendered (VOid o, new))
    ∧ new !! "updated_by" = Some (VStr username)
    ∧ new !! "updated_at" = Some (VStr now)
    ∧ (∀ k, k ≠ "updated_by" → k ≠ "updated_at" →
         new !! k = match supplied a k with
                    | Some s => Some (VStr s)
                    | None => old !! k
                    end)
    ∧ (∀ m, a = AnnouncementUpdate.mk (Some m) None None →
         new !! "message" = Some (VStr m)
         ∧ new !! "start_date" = old !! "start_date"
         ∧ new !! "expiration_date" = old !! "expiration_date"
         ∧ new !! "created_by" = old !! "created_by"
         ∧ new !! "created_at" = old !! "created_at").
Proof.
  intros H.
  destruct (update_announcement_Ok _ _ _ _ _ _ _ H)
    as (o & l1 & l2 & [id old] & Hu & Ha & Hid & Hw & Hl1 & Hr).
  simpl in Hr. subst id.
  rewrite (update_announcement_found _ _ Hu _ _ _ _ _ _ _ Ha Hid Hw Hl1 eq_refl) in H.
  simpl in H. injection H as <- <-.
  exists o, l1, l2, old, (update_doc_of now username a ∪ old). simpl.
  do 6 (split; [done|]).
  split; [by rewrite update_doc_of_lookup|].
  split; [by rewrite update_doc_of_lookup|].
  split.
  - intros k Hby Hat. rewrite update_doc_of_lookup.
    by rewrite decide_False, decide_False.
  - intros m ->. by rewrite !update_doc_of_lookup.
Qed.

(** ** Create *)

(** C8.  A create request of an authorized username, given an identifier
    that the store does not hold yet, adds one record at the end of the
    store and answers with it: [message], [start_date] and
    [expiration_date] as supplied ([start_date] null when it is not
    supplied), [created_by] the requesting username, [created_at] the
    current instant, no other field, and in the response [_id], the new
    identifier as a string. *)
Theorem create_returns_created_record (now : string) (new_id : bson.ObjectId)
    (a : AnnouncementCreate.t) (username : string) (w : world) :
  authorized username w →
  lookup_id (VOid new_id) (announcements_collection w) = None →
  ∃ stored,
    create_announcement now new_id a username w =
      (Ok (<["_id" := VStr (bson.to_str new_id)]> stored),
       mkWorld (teachers_collection w)
         (announcements_collection w ++ [(VOid new_id, stored)])
         (trace w ++ [(Teachers, FindOne); (Announcements, InsertOne)]))
    ∧ stored !! "message" = Some (VStr (AnnouncementCreate.message a))
    ∧ stored !! "start_date" = Some (of_optional (AnnouncementCreate.start_date a))
    ∧ stored !! "expiration_date" = Some (VStr (AnnouncementCreate.expiration_date a))
    ∧ stored !! "created_by" = Some (VStr username)
    ∧ stored !! "created_at" = Some (VStr now)
    ∧ (∀ k, k ∉ ["message"; "start_date"; "expiration_date"; "created_by"; "created_at"] →
            stored !! k = None).
Proof.
  intros (t & Ht & Htr)%find_teacher_Some Hl.
  eexists. split.
  - unfold create_announcement, mbind, M_bind. rewrite Ht, Htr. simpl.
    unfold insert_one. simpl. rewrite Hl. simpl.
    unfold mret, M_ret. simpl. by rewrite <- !app_assoc.
  - repeat split; try by simplify_map_eq.
    intros k Hk. rewrite !lookup_insert_ne, lookup_empty; [done|..];
      intros <-; apply Hk; set_solver.
Qed.

(** * The properties on the small school *)

Lemma school_dated : Forall (λ r, dated r.2) (announcements_collection school).
Proof.
  apply Forall_cons_2; [|apply Forall_nil_2].
  split; vm_compute; [exact I|discriminate].
Defined.

Lemma school_with_notice_comparable :
  Forall (λ r, comparable_dates r.2) (announcements_collection school_with_notice).
Proof.
  apply Forall_cons_2; [|apply Forall_cons_2; [|apply Forall_nil_2]];
    split; vm_compute; exact I.
Defined.

Lemma alice_authorized : authorized "alice" school.
Proof. exists alice. reflexivity. Defined.

Lemma date_filter_excludes_iff_school :
  Forall (λ r, dated r.2) (announcements_collection school)
  ∧ (∀ r, r ∈ announcements_collection school →
          date_filter "2025-06-01T09:00:00" r.2
          = Ok (negb (excluded "2025-06-01T09:00:00" r.2)))
  ∧ get_active_announcements "2025-06-01T09:00:00" school =
      (Ok (rendered <$> filter (λ r, excluded "2025-06-01T09:00:00" r.2 = false)
                          (announcements_collection school)),
       record Announcements Find school).
Proof.
  split; [exact school_dated|].
  exact (date_filter_excludes_iff "2025-06-01T09:00:00" school school_dated).
Defined.

Lemma unknown_username_is_rejected_school :
  lookup_id (VStr "mallory") (teachers_collection school) = None
  ∧ rejected (HTTPException 401 "Unauthorized") school
      (delete_announcement "507f1f77bcf86cd799439011" "mallory" school).
Proof.
  assert (lookup_id (VStr "mallory") (teachers_collection school) = None) as H
    by reflexivity.
  split; [exact H|].
  exact (proj2 (proj2 (proj2 (unknown_username_is_rejected "mallory" school H)))
           "507f1f77bcf86cd799439011").
Defined.

(** C3 as the claim has it fails: a delete request of a teacher with the
    identifier [abc], which does not convert, ends in [InvalidId], and that
    is answered with 500, not with a client error. *)
Lemma unconvertible_identifier_is_server_error :
  authorized "alice" school
  ∧ bson.of_str "abc" = None
  ∧ (delete_announcement "abc" "alice" school).1 = Raise InvalidId
  ∧ client_error InvalidId = false
  ∧ server_error InvalidId = true.
Proof.
  split; [exact alice_authorized|]. by vm_compute.
Qed.

Lemma unconvertible_identifier_school :
  authorized "alice" school
  ∧ bson.of_str "abc" = None
  ∧ rejected InvalidId school (delete_announcement "abc" "alice" school).
Proof.
  assert (bson.of_str "abc" = None) as H by reflexivity.
  split; [exact alice_authorized|]. split; [exact H|].
  exact (proj1 (unconvertible_identifier "abc" "alice" school alice_authorized H)).
Defined.

(** C4 as the claim has it fails: at the very instant of its expiration
    the exam announcement passes the filter and is in the response of
    list-active. *)
Lemma expiration_instant_not_excluded :
  dict_get exam.2 "expiration_date" = VStr "2099-01-01T00:00:00"
  ∧ date_filter "2099-01-01T00:00:00" exam.2 = Ok true
  ∧ (get_active_announcements "2099-01-01T00:00:00" school).1 = Ok [rendered exam].
Proof. by vm_compute. Qed.

Lemma exam_in_school : exam ∈ announcements_collection school.
Proof. apply list_elem_of_here. Defined.

Lemma expiration_instant_is_active_school :
  date_filter "2099-01-01T00:00:00" exam.2 = Ok true
  ∧ ∃ l, (get_active_announcements "2099-01-01T00:00:00" school).1 = Ok l
         ∧ rendered exam ∈ l.
Proof.
  apply (expiration_instant_is_active "2099-01-01T00:00:00" school exam).
  - eapply Forall_impl; [exact school_dated|]. intros r. apply dated_comparable.
  - exact exam_in_school.
  - reflexivity.
  - vm_compute. exact I.
Defined.

Lemma no_fields_supplies_nothing : supplies_nothing no_fields.
Proof. repeat split. Defined.

Lemma empty_update_is_refused_school :
  authorized "alice" school
  ∧ supplies_nothing no_fields
  ∧ rejected (HTTPException 400 "No fields to update") school
      (update_announcement "2025-06-01T09:00:00" "507f1f77bcf86cd799439011"
         no_fields "alice" school).
Proof.
  split; [exact alice_authorized|]. split; [exact no_fields_supplies_nothing|].
  exact (empty_update_is_refused "2025-06-01T09:00:00" "507f1f77bcf86cd799439011"
           "alice" no_fields school alice_authorized no_fields_supplies_nothing).
Defined.

Lemma update_changes_supplied_fields_school :
  let new := update_doc_of "2025-06-01T09:00:00" "alice" new_message ∪ exam.2 in
  let w' := mkWorld [alice] [(VOid exam_id, new)]
              [(Teachers, FindOne); (Announcements, UpdateOne); (Announcements, FindOne)] in
  update_announcement "2025-06-01T09:00:00" "507f1f77bcf86cd799439011" new_message
    "alice" school = (Ok (Some (rendered (VOid exam_id, new))), w')
  ∧ ∃ o l1 l2 old new,
      bson.of_str "507f1f77bcf86cd799439011" = Some o
      ∧ lookup_id (VOid o) l1 = None
      ∧ announcements_collection school = l1 ++ (VOid o, old) :: l2
      ∧ announcements_collection w' = l1 ++ (VOid o, new) :: l2
      ∧ new !! "message" = Some (VStr "Exam moved to Monday")
      ∧ new !! "expiration_date" = old !! "expiration_date".
Proof.
  intros new w'.
  assert (update_announcement "2025-06-01T09:00:00" "507f1f77bcf86cd799439011"
            new_message "alice" school = (Ok (Some (rendered (VOid exam_id, new))), w'))
    as H by (vm_compute; reflexivity).
  split; [exact H|].
  destruct (update_changes_supplied_fields _ _ _ _ _ _ _ H)
    as (o & l1 & l2 & old & new' & Hid & Hl1 & Hw & Hw' & _ & _ & _ & _ & _ & Hm).
  destruct (Hm _ eq_refl) as (Hmsg & _ & He & _).
  exists o, l1, l2, old, new'. repeat split; assumption.
Defined.

(** C7 as the claim has it fails on an update request whose body supplies
    no field: it ends in 400 "No fields to update" when no record has the
    identifier, and also when a record has it. *)
Lemma empty_update_is_not_not_found :
  authorized "alice" school
  ∧ bson.of_str "507f1f77bcf86cd799439012" = Some trip_id
  ∧ lookup_id (VOid trip_id) (announcements_collection school) = None
  ∧ (update_announcement "2025-06-01T09:00:00" "507f1f77bcf86cd799439012"
       no_fields "alice" school).1 = Raise (HTTPException 400 "No fields to update")
  ∧ bson.of_str "507f1f77bcf86cd799439011" = Some exam_id
  ∧ lookup_id (VOid exam_id) (announcements_collection school) = Some exam
  ∧ (update_announcement "2025-06-01T09:00:00" "507f1f77bcf86cd799439011"
       no_fields "alice" school).1 = Raise (HTTPException 400 "No fields to update").
Proof.
  split; [exact alice_authorized|]. by vm_compute.
Qed.

Lemma unmatched_identifier_school :
  authorized "alice" school
  ∧ bson.of_str "507f1f77bcf86cd799439012" = Some trip_id
  ∧ (delete_announcement "507f1f77bcf86cd799439012" "alice" school).1 = Raise not_found
  ∧ announcements_collection
      (delete_announcement "507f1f77bcf86cd799439012" "alice" school).2
    = announcements_collection school.
Proof.
  assert (bson.of_str "507f1f77bcf86cd799439012" = Some trip_id) as H by reflexivity.
  split; [exact alice_authorized|]. split; [exact H|].
  exact (proj1 (proj2 (unmatched_identifier "507f1f77bcf86cd799439012" "alice" school
                         trip_id alice_authorized H)) eq_refl).
Defined.

Lemma create_returns_created_record_school :
  authorized "alice" school
  ∧ lookup_id (VOid trip_id) (announcements_collection school) = None
  ∧ ∃ stored,
      create_announcement "2025-06-01T09:00:00" trip_id trip "alice" school =
        (Ok (<["_id" := VStr "507f1f77bcf86cd799439012"]> stored),
         mkWorld [alice] [exam; (VOid trip_id, stored)]
           [(Teachers, FindOne); (Announcements, InsertOne)])
      ∧ stored !! "message" = Some (VStr "Museum trip")
      ∧ stored !! "start_date" = Some VNone
      ∧ stored !! "created_by" = Some (VStr "alice").
Proof.
  assert (lookup_id (VOid trip_id) (announcements_collection school) = None) as H
    by reflexivity.
  split; [exact alice_authorized|]. split; [exact H|].
  destruct (create_returns_created_record "2025-06-01T09:00:00" trip_id trip "alice"
              school alice_authorized H)
    as (stored & Hc & Hm & Hs & _ & Hby & _).
  exists stored. repeat split; assumption.
Defined.

Lemma null_update_is_empty_update_school :
  null_body !! "message" = Some JNull
  ∧ null_body !! "start_date" = Some JNull
  ∧ null_body !! "expiration_date" = Some JNull
  ∧ update_announcement "2025-06-01T09:00:00" "507f1f77bcf86cd799439011"
      (AnnouncementUpdate.validate null_body) "alice" school
    = update_announcement "2025-06-01T09:00:00" "507f1f77bcf86cd799439011"
        (AnnouncementUpdate.validate ∅) "alice" school
  ∧ rejected (HTTPException 400 "No fields to update") school
      (update_announcement "2025-06-01T09:00:00" "507f1f77bcf86cd799439011"
         (AnnouncementUpdate.validate null_body) "alice" school).
Proof.
  assert (null_body !! "message" = Some JNull) as Hm by reflexivity.
  assert (null_body !! "start_date" = Some JNull) as Hs by reflexivity.
  assert (null_body !! "expiration_date" = Some JNull) as He by reflexivity.
  do 3 (split; [assumption|]).
  destruct (null_update_is_empty_update null_body "2025-06-01T09:00:00"
              "507f1f77bcf86cd799439011" "alice" school Hm Hs He) as (_ & Heq & Hr).
  split; [exact Heq|exact (Hr alice_authorized)].
Defined.

Lemma notice_in_school : notice ∈ announcements_collection school_with_notice.
Proof. apply list_elem_of_further, list_elem_of_here. Defined.

Lemma empty_expiration_never_expires_school :
  dict_get notice.2 "expiration_date" = VStr ""
  ∧ started "2100-01-01T00:00:00" notice.2
  ∧ date_filter "2100-01-01T00:00:00" notice.2 = Ok true
  ∧ ∃ l, (get_active_announcements "2100-01-01T00:00:00" school_with_notice).1 = Ok l
         ∧ rendered notice ∈ l.
Proof.
  assert (dict_get notice.2 "expiration_date" = VStr "") as He by reflexivity.
  assert (started "2100-01-01T00:00:00" notice.2) as Hs by reflexivity.
  split; [exact He|]. split; [exact Hs|].
  exact (proj2 (proj2 (empty_expiration_never_expires "2100-01-01T00:00:00"
                         school_with_notice notice school_with_notice_comparable
                         notice_in_school He Hs))).
Defined.

(** * Further properties of the handlers *)

(** ** The order of strings *)

Lemma ascii_compare_Lt (a b : ascii) :
  Ascii.compare a b = Lt ↔ N_of_ascii a < N_of_ascii b.
Proof. unfold Ascii.compare. apply N.compare_lt_iff. Qed.

Lemma string_compare_trans (s1 s2 s3 : string) :
  String.compare s1 s2 = Lt → String.compare s2 s3 = Lt → String.compare s1 s3 = Lt.
Proof.
  revert s2 s3. induction s1 as [|c1 s1 IH]; intros [|c2 s2] [|c3 s3]; simpl; try done.
  destruct (Ascii.compare c1 c2) eqn:H12; [|destruct (Ascii.compare c2 c3) eqn:H23|done].
  - apply Ascii.compare_eq_iff in H12 as ->.
    destruct (Ascii.compare c2 c3); [apply IH|done|done].
  - apply Ascii.compare_eq_iff in H23 as ->. by rewrite H12.
  - intros _ _. apply (proj1 (ascii_compare_Lt _ _)) in H12.
    apply (proj1 (ascii_compare_Lt _ _)) in H23.
    assert (Ascii.compare c1 c3 = Lt) as -> by (apply ascii_compare_Lt; lia). done.
  - done.
Qed.

(** [s1 < s2] and not [s3 < s2] give [s1 < s3]. *)
Lemma ltb_le_trans (s1 s2 s3 : string) :
  String.ltb s1 s2 = true → String.ltb s3 s2 = false → String.ltb s1 s3 = true.
Proof.
  unfold String.ltb. intros H12 H32.
  destruct (String.compare s1 s2) eqn:E12; try done.
  destruct (String.compare s3 s2) eqn:E32; try done.
  - apply String.compare_eq_iff in E32 as ->. by rewrite E12.
  - rewrite String.compare_antisym in E32.
    destruct (String.compare s2 s3) eqn:E23; try done.
    by rewrite (string_compare_trans _ _ _ E12 E23).
Qed.

Lemma ltb_empty_r (s : string) : String.ltb s "" = false.
Proof. by destruct s. Qed.

(** ** The window of the Date Filter *)

(** What [Ok true] says of the two date fields. *)
Lemma date_filter_true_inv (now : string) (d : doc) :
  date_filter now d = Ok true →
  (truthy (dict_get d "start_date") = false
   ∨ ∃ s, dict_get d "start_date" = VStr s ∧ String.ltb now s = false)
  ∧ (truthy (dict_get d "expiration_date") = false
     ∨ ∃ e, dict_get d "expiration_date" = VStr e ∧ String.ltb e now = false).
Proof.
  unfold date_filter.
  destruct (dict_get d "start_date") as [|s|?],
    (dict_get d "expiration_date") as [|e|?]; simpl; try done;
    repeat match goal with
           | |- context [String.eqb ?x ""] => destruct (String.eqb x ""); simpl
           | |- context [String.ltb ?x ?y] => destruct (String.ltb x y) eqn:?; simpl
           end; try done; intros _; split; eauto.
Qed.

Lemma date_filter_true_intro (now : string) (d : doc) :
  (truthy (dict_get d "start_date") = false
   ∨ ∃ s, dict_get d "start_date" = VStr s ∧ String.ltb now s = false) →
  (truthy (dict_get d "expiration_date") = false
   ∨ ∃ e, dict_get d "expiration_date" = VStr e ∧ String.ltb e now = false) →
  date_filter now d = Ok true.
Proof.
  unfold date_filter. intros [Hs|(s & -> & Hs)] [He|(e & -> & He)]; simpl.
  - by rewrite Hs, He.
  - rewrite Hs, He. by destruct (String.eqb e "").
  - rewrite Hs, He. by destruct (String.eqb s "").
  - rewrite Hs, He. by destruct (String.eqb s ""), (String.eqb e "").
Qed.

(** X1.  The instants at which the filter lets an announcement through
    form an interval of the string order: an announcement let through at
    [now1] and at [now3] is let through at every [now2] that is neither
    before [now1] nor after [now3]. *)
Theorem active_window_is_an_interval (now1 now2 now3 : string) (d : doc) :
  date_filter now1 d = Ok true →
  date_filter now3 d = Ok true →
  String.ltb now2 now1 = false →
  String.ltb now3 now2 = false →
  date_filter now2 d = Ok true.
Proof.
  intros [Hs _]%date_filter_true_inv [_ He]%date_filter_true_inv H21 H32.
  apply date_filter_true_intro.
  - destruct Hs as [Hs|(s & Hs & Hlt)]; [by left|right].
    exists s. split; [done|].
    destruct (String.ltb now2 s) eqn:E; [|done].
    by rewrite (ltb_le_trans now2 s now1 E Hlt) in H21.
  - destruct He as [He|(e & He & Hlt)]; [by left|right].
    exists e. split; [done|].
    destruct (String.ltb e now2) eqn:E; [|done].
    by rewrite (ltb_le_trans e now2 now3 E H32) in Hlt.
Qed.

(** X2.  Nothing checks that an announcement starts before it expires: a
    record whose [start_date] is after its (non-empty) [expiration_date]
    is skipped at every instant. *)
Theorem start_after_expiration_never_active (now s e : string) (d : doc) :
  dict_get d "start_date" = VStr s →
  dict_get d "expiration_date" = VStr e →
  e ≠ "" →
  String.ltb e s = true →
  date_filter now d = Ok false.
Proof.
  intros Hs He Hne Hlt. unfold date_filter. rewrite Hs, He. simpl.
  assert (String.eqb s "" = false) as ->.
  { apply String.eqb_neq. intros ->. by rewrite ltb_empty_r in Hlt. }
  rewrite (eqb_empty_false e Hne). simpl.
  destruct (String.ltb now s) eqn:E; [done|].
  by rewrite (ltb_le_trans e s now Hlt E).
Qed.

(** ** The two listings *)

Lemma stringify_ids_with_id (l : collection) :
  stringify_ids (with_id <$> l) = Ok (rendered <$> l).
Proof.
  induction l as [|r l IH]; [done|].
  rewrite fmap_cons. cbn [stringify_ids].
  by rewrite stringify_id_with_id, IH.
Qed.

Lemma date_filter_Raise (now : string) (d : doc) (e : exn) :
  date_filter now d = Raise e → e = TypeError.
Proof.
  unfold date_filter, py_lt, py_gt.
  destruct (dict_get d "start_date") as [|s|?],
    (dict_get d "expiration_date") as [|x|?]; simpl;
    repeat match goal with
           | |- context [String.eqb ?x ""] => destruct (String.eqb x ""); simpl
           | |- context [String.ltb ?x ?y] => destruct (String.ltb x y); simpl
           end; congruence.
Qed.

(** The loop ends in [TypeError], or keeps a sub-sequence of the records
    it is given, each of which passes the filter. *)
Lemma active_loop_outcome (now : string) (l : collection) (acc : list doc) :
  active_loop now (with_id <$> l) acc = Raise TypeError
  ∨ ∃ kept, active_loop now (with_id <$> l) acc = Ok (acc ++ (rendered <$> kept))
            ∧ kept `sublist_of` l
            ∧ Forall (λ r, date_filter now r.2 = Ok true) kept.
Proof.
  revert acc. induction l as [|r l IH]; intros acc.
  - right. exists []. simpl. by rewrite app_nil_r.
  - rewrite fmap_cons. cbn [active_loop]. rewrite date_filter_with_id.
    destruct (date_filter now r.2) as [[|]|e] eqn:Hf.
    + rewrite stringify_id_with_id.
      destruct (IH (acc ++ [rendered r])) as [->|(kept & -> & Hk & Hall)]; [by left|].
      right. exists (r :: kept). rewrite <- app_assoc.
      split; [done|]. split; [by apply sublist_skip|by apply Forall_cons_2].
    + destruct (IH acc) as [->|(kept & -> & Hk & Hall)]; [by left|].
      right. exists kept. split; [done|]. split; [by apply sublist_cons|done].
    + left. by rewrite (date_filter_Raise _ _ _ Hf).
Qed.

Lemma get_active_announcements_unfold (now : string) (w : world) :
  get_active_announcements now w =
    (active_loop now (with_id <$> announcements_collection w) [],
     record Announcements Find w).
Proof. reflexivity. Qed.

(** X3.  The public listing reads the announcements once and does nothing
    else to the store, whatever it ends in: no look-up of a teacher, no
    write.  It ends in [TypeError] or answers a sub-sequence of the stored
    records, in the store's order, each passing the Date Filter and shown
    with [_id] as a string. *)
Theorem get_active_announcements_outcome (now : string) (w : world) :
  (get_active_announcements now w).2 = record Announcements Find w
  ∧ ((get_active_announcements now w).1 = Raise TypeError
     ∨ ∃ kept, (get_active_announcements now w).1 = Ok (rendered <$> kept)
               ∧ kept `sublist_of` announcements_collection w
               ∧ Forall (λ r, date_filter now r.2 = Ok true) kept).
Proof.
  rewrite get_active_announcements_unfold. split; [done|]. cbn [fst].
  destruct (active_loop_outcome now (announcements_collection w) [])
    as [->|(kept & -> & Hk & Hall)]; [by left|right].
  by exists kept.
Qed.

Lemma get_all_announcements_response (username : string) (w : world) :
  authorized username w →
  (get_all_announcements username w).1 = Ok (rendered <$> announcements_collection w).
Proof.
  intros (t & Ht & Htr)%find_teacher_Some.
  unfold get_all_announcements, mbind, M_bind. rewrite Ht, Htr. simpl.
  unfold lift. by rewrite stringify_ids_with_id.
Qed.

(** X4.  For a known username the management listing answers every stored
    record, in the store's order, with [_id] as a string, whatever the
    dates; it reads the teacher, then the announcements, and leaves the
    store as it was. *)
Theorem get_all_announcements_lists_everything (username : string) (w : world) :
  authorized username w →
  get_all_announcements username w =
    (Ok (rendered <$> announcements_collection w),
     mkWorld (teachers_collection w) (announcements_collection w)
       (trace w ++ [(Teachers, FindOne); (Announcements, Find)])).
Proof.
  intros (t & Ht & Htr)%find_teacher_Some.
  unfold get_all_announcements, mbind, M_bind. rewrite Ht, Htr. simpl.
  unfold lift. rewrite stringify_ids_with_id.
  unfold record. simpl. by rewrite <- app_assoc.
Qed.

(** X5.  What the public listing answers is a sub-sequence of what the
    management listing answers on the same store. *)
Theorem active_is_part_of_all (now username : string) (w : world) (active : list doc) :
  authorized username w →
  (get_active_announcements now w).1 = Ok active →
  ∃ all, (get_all_announcements username w).1 = Ok all ∧ active `sublist_of` all.
Proof.
  intros (t & Ht & Htr)%find_teacher_Some Ha.
  exists (rendered <$> announcements_collection w). split.
  - unfold get_all_announcements, mbind, M_bind. rewrite Ht, Htr. simpl.
    unfold lift. by rewrite stringify_ids_with_id.
  - revert Ha. rewrite get_active_announcements_unfold. cbn [fst].
    destruct (active_loop_outcome now (announcements_collection w) [])
      as [->|(kept & -> & Hk & _)]; [done|].
    intros [= <-]. by apply fmap_sublist.
Qed.

Lemma active_loop_TypeError (now : string) (l : collection) (acc : list doc)
    (r : value * doc) (o : bson.ObjectId) :
  r ∈ l → dict_get r.2 "start_date" = VOid o →
  active_loop now (with_id <$> l) acc = Raise TypeError.
Proof.
  intros Hr Hs. revert acc. induction Hr as [r l|r x l Hr IH]; intros acc.
  - rewrite fmap_cons. cbn [active_loop].
    rewrite date_filter_with_id. unfold date_filter. by rewrite Hs.
  - destruct (active_loop_outcome now (x :: l) acc) as [H|(kept & H & _)]; [done|].
    revert H. rewrite fmap_cons. cbn [active_loop]. rewrite date_filter_with_id.
    destruct (date_filter now x.2) as [[|]|e]; [|by rewrite IH|done].
    rewrite stringify_id_with_id. by rewrite IH.
Qed.

(** X6.  One stored record whose [start_date] is not a string or null
    stops the public listing for everybody: comparing [now] with it raises
    [TypeError], at every instant and whatever the other records are. *)
Theorem misdated_record_breaks_listing (now : string) (w : world) (r : value * doc)
    (o : bson.ObjectId) :
  r ∈ announcements_collection w →
  dict_get r.2 "start_date" = VOid o →
  (get_active_announcements now w).1 = Raise TypeError
  ∧ server_error TypeError = true.
Proof.
  intros Hr Hs. split; [|done].
  rewrite get_active_announcements_unfold. cbn [fst].
  by rewrite (active_loop_TypeError now _ [] r o Hr Hs).
Qed.

(** ** What the handlers leave alone *)

Lemma lookup_id_None (id : value) (l : collection) :
  lookup_id id l = None ↔ id ∉ ids l.
Proof.
  unfold ids. induction l as [|r l IH]; simpl.
  - split; [intros _; apply not_elem_of_nil|done].
  - rewrite not_elem_of_cons. destruct (decide (r.1 = id)) as [Hr|Hr].
    + split; [done|]. by intros [? _].
    + rewrite IH. split; [by split|by intros [_ ?]].
Qed.

Lemma set_first_ids (id : value) (upd : doc) (l : collection) :
  ids (set_first id upd l).2 = ids l.
Proof.
  unfold ids. induction l as [|r l IH]; [done|].
  cbn [set_first]. destruct (decide (r.1 = id)); [done|].
  destruct (set_first id upd l) as [k l'']. cbn [snd] in *.
  by rewrite !fmap_cons, IH.
Qed.

Lemma remove_first_sublist (id : value) (l : collection) :
  (remove_first id l).2 `sublist_of` l
  ∧ (List.length l ≤ S (List.length (remove_first id l).2))%nat.
Proof.
  induction l as [|r l [IH1 IH2]]; simpl; [split; [done|lia]|].
  destruct (decide (r.1 = id)); simpl.
  - split; [by apply sublist_cons|lia].
  - destruct (remove_first id l) as [k l'']. simpl in *.
    split; [by apply sublist_skip|lia].
Qed.

(** Where the announcements can be after each of the writing handlers. *)
Lemma create_announcement_store (now : string) (new_id : bson.ObjectId)
    (a : AnnouncementCreate.t) (username : string) (w : world) :
  let w' := (create_announcement now new_id a username w).2 in
  teachers_collection w' = teachers_collection w
  ∧ (announcements_collection w' = announcements_collection w
     ∨ lookup_id (VOid new_id) (announcements_collection w) = None
       ∧ ∃ stored, announcements_collection w'
                   = announcements_collection w ++ [(VOid new_id, stored)]).
Proof.
  unfold create_announcement, mbind, M_bind, find_one, insert_one, raise, mret, M_ret.
  simpl. destruct (negb (truthy_doc _)); simpl; [by split; [|left]|].
  destruct (lookup_id (VOid new_id) (announcements_collection w)) eqn:Hl; simpl.
  - by split; [|left].
  - split; [done|right]. split; [done|]. by eexists.
Qed.

Lemma update_announcement_store (now id : string) (a : AnnouncementUpdate.t)
    (username : string) (w : world) :
  let w' := (update_announcement now id a username w).2 in
  teachers_collection w' = teachers_collection w
  ∧ ids (announcements_collection w') = ids (announcements_collection w).
Proof.
  unfold update_announcement, mbind, M_bind, find_one, update_one, raise, ObjectId,
    lift, mret, M_ret.
  simpl. destruct (negb (truthy_doc _)); simpl; [done|].
  destruct (bool_decide _); simpl; [done|].
  destruct (bson.of_str id) as [o|]; simpl; [|done].
  pose proof (set_first_ids (VOid o)
                (<["updated_by" := VStr username]>
                   (<["updated_at" := VStr now]> (build_update_doc a)))
                (announcements_collection w)) as Hids.
  destruct (set_first _ _ _) as [n l]. simpl in *.
  destruct (n =? 0); simpl; [done|].
  destruct (truthy_doc _); simpl; [|done].
  destruct (lookup_id _ _); simpl; [|done].
  by destruct (stringify_id _).
Qed.

Lemma delete_announcement_store (id username : string) (w : world) :
  let w' := (delete_announcement id username w).2 in
  teachers_collection w' = teachers_collection w
  ∧ announcements_collection w' `sublist_of` announcements_collection w
  ∧ (List.length (announcements_collection w)
     ≤ S (List.length (announcements_collection w')))%nat.
Proof.
  unfold delete_announcement, mbind, M_bind, find_one, delete_one, raise, ObjectId,
    mret, M_ret.
  simpl. destruct (negb (truthy_doc _)); simpl; [split; [done|split; [done|lia]]|].
  destruct (bson.of_str id) as [o|]; simpl; [|split; [done|split; [done|lia]]].
  pose proof (remove_first_sublist (VOid o) (announcements_collection w)) as [Hs Hl].
  destruct (remove_first _ _) as [n l]. simpl in *.
  by destruct (n =? 0).
Qed.

Lemma get_all_announcements_store (username : string) (w : world) :
  let w' := (get_all_announcements username w).2 in
  teachers_collection w' = teachers_collection w
  ∧ announcements_collection w' = announcements_collection w.
Proof.
  unfold get_all_announcements, mbind, M_bind, find_one, find, raise, lift.
  simpl. destruct (negb (truthy_doc _)); simpl; [done|].
  done.
Qed.

(** X7.  No handler writes to the teachers, whatever its input and
    whatever it ends in. *)
Theorem teachers_are_never_modified (w : world) :
  (∀ now, teachers_collection (get_active_announcements now w).2 = teachers_collection w)
  ∧ (∀ username,
       teachers_collection (get_all_announcements username w).2 = teachers_collection w)
  ∧ (∀ now new_id a username,
       teachers_collection (create_announcement now new_id a username w).2
       = teachers_collection w)
  ∧ (∀ now id a username,
       teachers_collection (update_announcement now id a username w).2
       = teachers_collection w)
  ∧ (∀ id username,
       teachers_collection (delete_announcement id username w).2 = teachers_collection w).
Proof.
  split; [intros now; by rewrite get_active_announcements_unfold|].
  split; [intros username; apply get_all_announcements_store|].
  split; [intros now new_id a username; apply create_announcement_store|].
  split; [intros now id a username; apply update_announcement_store|].
  intros id username. apply delete_announcement_store.
Qed.

(** X8.  What each handler can do to the announcements, whatever its input
    and whatever it ends in: the two listings change nothing; a create
    keeps every stored record in place and adds at most one at the end; an
    update keeps the identifiers, their order and their number; a delete
    removes at most one record and changes none. *)
Theorem announcements_frame (w : world) :
  let stored := announcements_collection w in
  (∀ now, announcements_collection (get_active_announcements now w).2 = stored)
  ∧ (∀ username, announcements_collection (get_all_announcements username w).2 = stored)
  ∧ (∀ now new_id a username,
       let stored' := announcements_collection (create_announcement now new_id a username w).2 in
       stored' = stored ∨ ∃ r, stored' = stored ++ [r])
  ∧ (∀ now id a username,
       ids (announcements_collection (update_announcement now id a username w).2)
       = ids stored)
  ∧ (∀ id username,
       let stored' := announcements_collection (delete_announcement id username w).2 in
       stored' `sublist_of` stored
       ∧ (List.length stored ≤ S (List.length stored'))%nat).
Proof.
  intros stored. subst stored.
  split; [intros now; by rewrite get_active_announcements_unfold|].
  split; [intros username; apply get_all_announcements_store|].
  split.
  { intros now new_id a username.
    destruct (create_announcement_store now new_id a username w)
      as [_ [H|(_ & stored & H)]]; [by left|right; by eexists]. }
  split; [intros now id a username; apply update_announcement_store|].
  intros id username. apply delete_announcement_store.
Qed.

(** X9.  Every handler keeps the identifiers of the announcements
    distinct, whatever its input and whatever it ends in. *)
Theorem identifiers_stay_unique (w : world) :
  unique_ids w →
  (∀ now, unique_ids (get_active_announcements now w).2)
  ∧ (∀ username, unique_ids (get_all_announcements username w).2)
  ∧ (∀ now new_id a username, unique_ids (create_announcement now new_id a username w).2)
  ∧ (∀ now id a username, unique_ids (update_announcement now id a username w).2)
  ∧ (∀ id username, unique_ids (delete_announcement id username w).2).
Proof.
  unfold unique_ids. intros Hw.
  split; [intros now; by rewrite get_active_announcements_unfold|].
  split.
  { intros username.
    by rewrite (proj2 (get_all_announcements_store username w)). }
  split.
  { intros now new_id a username.
    destruct (create_announcement_store now new_id a username w)
      as [_ [->|(Hl & stored & ->)]]; [done|].
    unfold ids. rewrite fmap_app. simpl. apply NoDup_app.
    split; [done|]. split; [|apply NoDup_singleton].
    intros x Hx ->%list_elem_of_singleton. by apply lookup_id_None in Hl. }
  split.
  { intros now id a username.
    by rewrite (proj2 (update_announcement_store now id a username w)). }
  intros id username.
  destruct (delete_announcement_store id username w) as (_ & Hs & _).
  eapply sublist_NoDup; [exact Hw|unfold ids; by apply fmap_sublist].
Qed.

(** ** Create, then list, update or delete *)

Lemma create_announcement_fresh (now : string) (new_id : bson.ObjectId)
    (a : AnnouncementCreate.t) (username : string) (w : world) :
  authorized username w →
  lookup_id (VOid new_id) (announcements_collection w) = None →
  create_announcement now new_id a username w =
    (Ok (rendered (VOid new_id, announcement_doc_of now username a)),
     created now new_id a username w).
Proof.
  intros (t & Ht & Htr)%find_teacher_Some Hl.
  unfold create_announcement, mbind, M_bind. rewrite Ht, Htr. simpl.
  unfold insert_one. simpl. rewrite Hl. simpl.
  unfold mret, M_ret, created, record. simpl. by rewrite <- !app_assoc.
Qed.

Lemma created_authorized (now : string) (new_id : bson.ObjectId)
    (a : AnnouncementCreate.t) (username username' : string) (w : world) :
  authorized username' w → authorized username' (created now new_id a username w).
Proof. done. Qed.

(** X10.  A record that a create has added is the last record of the
    management listing that follows, exactly as the create answered it;
    the records before it are those of the listing before. *)
Theorem create_then_list_all (now : string) (new_id : bson.ObjectId)
    (a : AnnouncementCreate.t) (username : string) (w : world) :
  authorized username w →
  lookup_id (VOid new_id) (announcements_collection w) = None →
  ∃ d all w',
    create_announcement now new_id a username w = (Ok d, w')
    ∧ (get_all_announcements username w).1 = Ok all
    ∧ (get_all_announcements username w').1 = Ok (all ++ [d]).
Proof.
  intros Hu Hl.
  destruct (find_teacher_Some _ _ Hu) as (t & Ht & Htr).
  destruct (find_teacher_Some _ _ (created_authorized now new_id a username _ _ Hu))
    as (t' & Ht' & Htr').
  eexists _, (rendered <$> announcements_collection w), _.
  split; [by apply create_announcement_fresh|].
  unfold get_all_announcements, mbind, M_bind. rewrite Ht, Htr, Ht', Htr'. simpl.
  unfold lift. rewrite !stringify_ids_with_id. simpl.
  split; [done|]. by rewrite fmap_app.
Qed.

(** X11.  The [_id] string that a create answers addresses the created
    record: when the new identifier has twelve bytes, an update with that
    string and a body that supplies a field succeeds, and a delete with
    that string succeeds and brings the announcements back to what they
    were before the create. *)
Theorem created_id_addresses_the_record (now : string) (new_id : bson.ObjectId)
    (a : AnnouncementCreate.t) (username : string) (w : world) :
  authorized username w →
  lookup_id (VOid new_id) (announcements_collection w) = None →
  twelve_bytes new_id →
  ∃ d s w',
    create_announcement now new_id a username w = (Ok d, w')
    ∧ d !! "_id" = Some (VStr s)
    ∧ (∀ now' a', ¬ supplies_nothing a' →
         succeeds (update_announcement now' s a' username w'))
    ∧ succeeds (delete_announcement s username w')
    ∧ announcements_collection (delete_announcement s username w').2
      = announcements_collection w.
Proof.
  intros Hu Hl [Hlen Hbytes].
  pose proof (created_authorized now new_id a username _ _ Hu) as Hu'.
  pose proof (of_str_to_str new_id Hlen Hbytes) as Hid.
  eexists _, (bson.to_str new_id), _.
  split; [by apply create_announcement_fresh|].
  split; [apply lookup_insert_eq|].
  split.
  - intros now' a' Ha'.
    rewrite (update_announcement_found _ _ Hu' now' _ a' new_id
               (announcements_collection w) [] _ Ha' Hid eq_refl Hl eq_refl).
    by eexists.
  - rewrite (delete_announcement_found _ _ Hu' _ new_id
               (announcements_collection w) [] _ Hid eq_refl Hl eq_refl).
    simpl. split; [by eexists|by rewrite app_nil_r].
Qed.

(** ** Delete and update, repeated *)

Lemma delete_announcement_Ok (id username : string) (w : world) :
  authorized username w →
  succeeds (delete_announcement id username w) →
  ∃ o l1 l2 r,
    bson.of_str id = Some o
    ∧ announcements_collection w = l1 ++ r :: l2
    ∧ lookup_id (VOid o) l1 = None ∧ r.1 = VOid o.
Proof.
  intros Hu [d Hd].
  destruct (bson.of_str id) as [o|] eqn:Hid.
  2:{ by rewrite (delete_announcement_invalid_id _ _ Hu _ Hid) in Hd. }
  destruct (lookup_id (VOid o) (announcements_collection w)) as [r|] eqn:Hl.
  2:{ by rewrite (delete_announcement_not_found _ _ Hu _ _ Hid Hl) in Hd. }
  destruct (lookup_id_split _ _ _ Hl) as (l1 & l2 & Hw & Hl1 & Hr).
  by exists o, l1, l2, r.
Qed.

Lemma lookup_id_removed (id : value) (l1 l2 : collection) (r : value * doc) :
  NoDup (ids (l1 ++ r :: l2)) → r.1 = id → lookup_id id (l1 ++ l2) = None.
Proof.
  unfold ids. rewrite fmap_app, fmap_cons. intros Hn Hr.
  apply NoDup_app in Hn as (_ & Hl1 & Hn). apply NoDup_cons in Hn as [Hl2 _].
  apply lookup_id_None. unfold ids. rewrite fmap_app, elem_of_app.
  intros [H|H]; [|by rewrite Hr in Hl2].
  apply (Hl1 _ H). rewrite Hr. apply list_elem_of_here.
Qed.

(** X12.  Where identifiers are distinct, a deleted announcement is gone
    for good: after a delete that succeeded, a second delete with the same
    identifier, and an update with it, end in 404 "Announcement not
    found", and the second delete changes nothing. *)
Theorem deleted_is_not_found (id username : string) (w : world) :
  authorized username w →
  unique_ids w →
  succeeds (delete_announcement id username w) →
  let w' := (delete_announcement id username w).2 in
  (delete_announcement id username w').1 = Raise not_found
  ∧ announcements_collection (delete_announcement id username w').2
    = announcements_collection w'
  ∧ (∀ now a, ¬ supplies_nothing a →
       (update_announcement now id a username w').1 = Raise not_found).
Proof.
  intros Hu Hn Hd.
  destruct (delete_announcement_Ok _ _ _ Hu Hd) as (o & l1 & l2 & r & Hid & Hw & Hl1 & Hr).
  rewrite (delete_announcement_found _ _ Hu _ _ _ _ _ Hid Hw Hl1 Hr). cbn [snd].
  set (w' := mkWorld _ _ _).
  assert (authorized username w') as Hu' by done.
  assert (lookup_id (VOid o) (announcements_collection w') = None) as Hl.
  { simpl. apply (lookup_id_removed _ _ _ r); [|done].
    unfold unique_ids in Hn. by rewrite Hw in Hn. }
  rewrite (delete_announcement_not_found _ _ Hu' _ _ Hid Hl).
  split; [done|]. split; [done|].
  intros now a Ha. by rewrite (update_announcement_not_found _ _ Hu' _ _ _ _ Ha Hid Hl).
Qed.

(** X13.  An update is idempotent: the same request repeated at the same
    instant succeeds again with the same response and leaves the
    announcements as the first one left them. *)
Theorem update_twice (now id username : string) (a : AnnouncementUpdate.t)
    (w w' : world) (u : option doc) :
  update_announcement now id a username w = (Ok u, w') →
  (update_announcement now id a username w').1 = Ok u
  ∧ announcements_collection (update_announcement now id a username w').2
    = announcements_collection w'.
Proof.
  intros H.
  destruct (update_announcement_Ok _ _ _ _ _ _ _ H)
    as (o & l1 & l2 & r & Hu & Ha & Hid & Hw & Hl1 & Hr).
  rewrite (update_announcement_found _ _ Hu _ _ _ _ _ _ _ Ha Hid Hw Hl1 Hr) in H.
  cbn zeta in H. injection H as <- <-.
  set (r' := (r.1, update_doc_of now username a ∪ r.2)).
  set (w' := mkWorld _ _ _).
  assert (authorized username w') as Hu' by done.
  rewrite (update_announcement_found _ _ Hu' now id a o l1 l2 r' Ha Hid eq_refl Hl1 Hr).
  cbn [fst snd announcements_collection]. subst r'. cbn [fst snd].
  by rewrite (assoc_L (∪)), (idemp_L (∪)).
Qed.

Lemma date_filter_expired (now e : string) (d : doc) :
  d !! "expiration_date" = Some (VStr e) → e ≠ "" → String.ltb e now = true →
  date_filter now d ≠ Ok true.
Proof.
  intros Hd Hne Hlt [_ He]%date_filter_true_inv.
  unfold dict_get in He. rewrite Hd in He. simpl in He.
  destruct He as [He|(e' & [= <-] & He)]; [|congruence].
  by rewrite (eqb_empty_false e Hne) in He.
Qed.

(** X14.  An update that moves [expiration_date] to a non-empty string
    before [now'] takes the record out of the public listing at [now']:
    what that listing answers is taken from the other records only.  The
    management listing still shows the record, in its place. *)
Theorem expired_by_update (now id username e now' : string)
    (a : AnnouncementUpdate.t) (w w' : world) (u : option doc) :
  update_announcement now id a username w = (Ok u, w') →
  AnnouncementUpdate.expiration_date a = Some e →
  e ≠ "" →
  String.ltb e now' = true →
  ∃ l1 r l2,
    announcements_collection w' = l1 ++ r :: l2
    ∧ u = Some (rendered r)
    ∧ date_filter now' r.2 ≠ Ok true
    ∧ (∀ active, (get_active_announcements now' w').1 = Ok active →
         ∃ kept, active = rendered <$> kept ∧ kept `sublist_of` l1 ++ l2)
    ∧ (get_all_announcements username w').1 = Ok (rendered <$> l1 ++ r :: l2).
Proof.
  intros H He Hne Hlt.
  destruct (update_announcement_Ok _ _ _ _ _ _ _ H)
    as (o & l1 & l2 & r & Hu & Ha & Hid & Hw & Hl1 & Hr).
  rewrite (update_announcement_found _ _ Hu _ _ _ _ _ _ _ Ha Hid Hw Hl1 Hr) in H.
  cbn zeta in H. injection H as <- <-.
  set (r' := (r.1, update_doc_of now username a ∪ r.2)).
  set (w' := mkWorld _ _ _).
  assert (authorized username w') as Hu' by done.
  assert (date_filter now' r'.2 ≠ Ok true) as Hf.
  { apply (date_filter_expired now' e); [|done|done].
    subst r'. cbn [snd]. rewrite update_doc_of_lookup.
    rewrite decide_False, decide_False by done.
    unfold supplied. rewrite decide_False, decide_False, decide_True by done.
    by rewrite He. }
  exists l1, r', l2. split; [done|]. split; [done|]. split; [done|]. split.
  - intros active. rewrite get_active_announcements_unfold. cbn [fst].
    destruct (active_loop_outcome now' (announcements_collection w') [])
      as [->|(kept & -> & Hk & Hall)]; [done|].
    intros [= <-]. exists kept. split; [done|].
    apply sublist_app_cons_r in Hk as [Hk|(k1 & k2 & -> & _ & _)]; [done|].
    apply Forall_app in Hall as [_ Hall]. by apply Forall_cons in Hall as [? _].
  - by rewrite (get_all_announcements_response username w' Hu').
Qed.

(** * The further properties on the small school *)

Lemma active_window_is_an_interval_exam :
  date_filter "2025-01-01T00:00:00" exam.2 = Ok true
  ∧ date_filter "2099-01-01T00:00:00" exam.2 = Ok true
  ∧ date_filter "2026-03-15T12:00:00" exam.2 = Ok true.
Proof.
  assert (date_filter "2025-01-01T00:00:00" exam.2 = Ok true) as H1 by reflexivity.
  assert (date_filter "2099-01-01T00:00:00" exam.2 = Ok true) as H3 by reflexivity.
  split; [exact H1|]. split; [exact H3|].
  exact (active_window_is_an_interval "2025-01-01T00:00:00" "2026-03-15T12:00:00"
           "2099-01-01T00:00:00" exam.2 H1 H3 eq_refl eq_refl).
Defined.

Lemma start_after_expiration_never_active_inverted :
  dict_get inverted "start_date" = VStr "2025-09-01T00:00:00"
  ∧ dict_get inverted "expiration_date" = VStr "2025-06-30T00:00:00"
  ∧ date_filter "2025-07-15T00:00:00" inverted = Ok false.
Proof.
  assert ("2025-06-30T00:00:00" ≠ "") as Hne by discriminate.
  split; [reflexivity|]. split; [reflexivity|].
  exact (start_after_expiration_never_active "2025-07-15T00:00:00"
           "2025-09-01T00:00:00" "2025-06-30T00:00:00" inverted
           eq_refl eq_refl Hne eq_refl).
Defined.

Lemma get_all_announcements_lists_everything_school :
  authorized "alice" school
  ∧ get_all_announcements "alice" school =
      (Ok (rendered <$> announcements_collection school),
       mkWorld (teachers_collection school) (announcements_collection school)
         (trace school ++ [(Teachers, FindOne); (Announcements, Find)])).
Proof.
  split; [exact alice_authorized|].
  exact (get_all_announcements_lists_everything "alice" school alice_authorized).
Defined.

Lemma active_is_part_of_all_school :
  authorized "alice" school
  ∧ (get_active_announcements "2025-06-01T09:00:00" school).1 = Ok [rendered exam]
  ∧ ∃ all, (get_all_announcements "alice" school).1 = Ok all
           ∧ [rendered exam] `sublist_of` all.
Proof.
  assert ((get_active_announcements "2025-06-01T09:00:00" school).1 = Ok [rendered exam])
    as H by (vm_compute; reflexivity).
  split; [exact alice_authorized|]. split; [exact H|].
  exact (active_is_part_of_all "2025-06-01T09:00:00" "alice" school [rendered exam]
           alice_authorized H).
Defined.

Lemma misdated_in_school : misdated ∈ announcements_collection school_misdated.
Proof. apply list_elem_of_further, list_elem_of_here. Defined.

Lemma misdated_record_breaks_listing_school :
  dict_get misdated.2 "start_date" = VOid exam_id
  ∧ (get_active_announcements "2025-06-01T09:00:00" school_misdated).1 = Raise TypeError.
Proof.
  split; [reflexivity|].
  exact (proj1 (misdated_record_breaks_listing "2025-06-01T09:00:00" school_misdated
                  misdated exam_id misdated_in_school eq_refl)).
Defined.

Lemma school_unique_ids : unique_ids school.
Proof.
  unfold unique_ids, ids. simpl. apply NoDup_singleton.
Defined.

Lemma identifiers_stay_unique_school :
  unique_ids school
  ∧ unique_ids (create_announcement "2025-06-01T09:00:00" trip_id trip "alice" school).2.
Proof.
  split; [exact school_unique_ids|].
  exact (proj1 (proj2 (proj2 (identifiers_stay_unique school school_unique_ids)))
           "2025-06-01T09:00:00" trip_id trip "alice").
Defined.

Lemma trip_id_fresh : lookup_id (VOid trip_id) (announcements_collection school) = None.
Proof. reflexivity. Defined.

Lemma trip_id_twelve_bytes : twelve_bytes trip_id.
Proof.
  split; [reflexivity|].
  simpl. repeat (apply Forall_cons_2; [reflexivity|]). apply Forall_nil_2.
Defined.

Lemma create_then_list_all_school :
  authorized "alice" school
  ∧ lookup_id (VOid trip_id) (announcements_collection school) = None
  ∧ ∃ d all w',
      create_announcement "2025-06-01T09:00:00" trip_id trip "alice" school = (Ok d, w')
      ∧ (get_all_announcements "alice" school).1 = Ok all
      ∧ (get_all_announcements "alice" w').1 = Ok (all ++ [d]).
Proof.
  split; [exact alice_authorized|]. split; [exact trip_id_fresh|].
  exact (create_then_list_all "2025-06-01T09:00:00" trip_id trip "alice" school
           alice_authorized trip_id_fresh).
Defined.

Lemma created_id_addresses_the_record_school :
  authorized "alice" school
  ∧ lookup_id (VOid trip_id) (announcements_collection school) = None
  ∧ twelve_bytes trip_id
  ∧ ∃ d s w',
      create_announcement "2025-06-01T09:00:00" trip_id trip "alice" school = (Ok d, w')
      ∧ d !! "_id" = Some (VStr s)
      ∧ succeeds (delete_announcement s "alice" w')
      ∧ announcements_collection (delete_announcement s "alice" w').2
        = announcements_collection school.
Proof.
  split; [exact alice_authorized|]. split; [exact trip_id_fresh|].
  split; [exact trip_id_twelve_bytes|].
  destruct (created_id_addresses_the_record "2025-06-01T09:00:00" trip_id trip "alice"
              school alice_authorized trip_id_fresh trip_id_twelve_bytes)
    as (d & s & w' & Hc & Hd & _ & Hs & Ha).
  exists d, s, w'. repeat split; assumption.
Defined.

Lemma exam_deleted : succeeds (delete_announcement "507f1f77bcf86cd799439011" "alice" school).
Proof. eexists. vm_compute. reflexivity. Defined.

Lemma deleted_is_not_found_school :
  authorized "alice" school
  ∧ unique_ids school
  ∧ succeeds (delete_announcement "507f1f77bcf86cd799439011" "alice" school)
  ∧ (delete_announcement "507f1f77bcf86cd799439011" "alice"
       (delete_announcement "507f1f77bcf86cd799439011" "alice" school).2).1
    = Raise not_found.
Proof.
  split; [exact alice_authorized|]. split; [exact school_unique_ids|].
  split; [exact exam_deleted|].
  exact (proj1 (deleted_is_not_found "507f1f77bcf86cd799439011" "alice" school
                  alice_authorized school_unique_ids exam_deleted)).
Defined.

Lemma update_twice_school :
  let out := update_announcement "2025-06-01T09:00:00" "507f1f77bcf86cd799439011"
               new_message "alice" school in
  (∃ u, out = (Ok u, out.2)
        ∧ (update_announcement "2025-06-01T09:00:00" "507f1f77bcf86cd799439011"
             new_message "alice" out.2).1 = Ok u)
  ∧ announcements_collection
      (update_announcement "2025-06-01T09:00:00" "507f1f77bcf86cd799439011"
         new_message "alice" out.2).2
    = announcements_collection out.2.
Proof.
  intros out.
  assert (out = (Ok (Some (rendered
                    (VOid exam_id,
                     update_doc_of "2025-06-01T09:00:00" "alice" new_message ∪ exam.2))),
                 out.2)) as H by (vm_compute; reflexivity).
  pose proof (update_twice _ _ _ _ _ _ _ H) as [H1 H2].
  split; [eexists; split; [exact H|exact H1]|exact H2].
Defined.

Lemma expired_by_update_school :
  let out := update_announcement "2025-06-01T09:00:00" "507f1f77bcf86cd799439011"
               expire_exam "alice" school in
  (∃ u, out = (Ok u, out.2))
  ∧ (get_active_announcements "2025-06-01T09:00:00" out.2).1 = Ok []
  ∧ ∃ l1 r l2,
      announcements_collection out.2 = l1 ++ r :: l2
      ∧ date_filter "2025-06-01T09:00:00" r.2 ≠ Ok true
      ∧ (get_all_announcements "alice" out.2).1 = Ok (rendered <$> l1 ++ r :: l2).
Proof.
  intros out.
  assert (out = (Ok (Some (rendered
                    (VOid exam_id,
                     update_doc_of "2025-06-01T09:00:00" "alice" expire_exam ∪ exam.2))),
                 out.2)) as H by (vm_compute; reflexivity).
  assert ("2000-01-01T00:00:00" ≠ "") as Hne by discriminate.
  split; [by eexists|]. split; [vm_compute; reflexivity|].
  destruct (expired_by_update "2025-06-01T09:00:00" "507f1f77bcf86cd799439011" "alice"
              "2000-01-01T00:00:00" "2025-06-01T09:00:00" expire_exam school out.2 _
              H eq_refl Hne eq_refl)
    as (l1 & r & l2 & Hw & _ & Hf & _ & Hall).
  exists l1, r, l2. repeat split; assumption.
Defined.
